(** * ariba/summary.py: the cross-sample summary of ARIBA reports

    A shallow embedding of [ariba.summary.Summary]: the classification of a
    gene's report lines into a summary number, the assembly of the
    sample-by-gene matrix, the filter that removes all-zero rows and columns,
    and the distance matrix written for the tree of samples.

    Python values are modelled as follows.
    - [int] is [Z]; [float] is a binary64 primitive float.
    - [str] is [string], one character per code point below 256.
    - a [dict] is a [gmap], a [set] a [gset], a [list] a [list].
    - a raised exception is the [Raise] case of [result]. *)

From Stdlib Require Import ZArith Floats.
From stdpp Require Import base option list strings pretty gmap sorting.

Open Scope Z_scope.

(** ** Exceptions *)

Inductive exn : Type :=
  | AssertionError
  | TypeError
  | IndexError
  | ValueError
  | KeyError (key : string)
  | Error (msg : string).

Inductive result (A : Type) : Type :=
  | Return (a : A)
  | Raise (e : exn).
Arguments Return {A} a.
Arguments Raise {A} e.

Global Instance result_ret : MRet result := λ A a, Return a.
Global Instance result_bind : MBind result := λ A B k m,
  match m with
  | Return a => k a
  | Raise e => Raise e
  end.
Global Instance result_fmap : FMap result := λ A B g m,
  match m with
  | Return a => Return (g a)
  | Raise e => Raise e
  end.

(** [for x in l: acc = body(acc, x)], stopping at the first exception. *)
Fixpoint for_each {A S : Type} (body : S → A → result S) (l : list A) (acc : S)
    : result S :=
  match l with
  | [] => Return acc
  | x :: l' => acc' ← body acc x; for_each body l' acc'
  end.

(** ** Report lines *)

(** Modelled from the spec: [flag.Flag] lives in [ariba/flag.py]; the spec
    describes it as a capability set answering boolean membership queries for
    named status predicates.  A flag is the set of names that hold. *)
Definition Flag : Type := gset string.
Definition has (f : Flag) (name : string) : bool := bool_decide (name ∈ f).

(** A column of [int_columns] holds an [int], or the string ['.']. *)
Inductive int_value : Type :=
  | Int (z : Z)
  | IntMissing.

(** [pc_ident] holds a [float], or the string ['.']. *)
Inductive float_value : Type :=
  | Float (x : float)
  | FloatMissing.

(** The dict that [_line2dict] returns, keyed by [columns].  The last two
    columns are not in [int_columns], so a line may lack them. *)
Record record : Type := {
  gene : string;
  flag : Flag;
  reads : int_value;
  cluster : string;
  gene_len : int_value;
  assembled : int_value;
  pc_ident : float_value;
  var_type : string;
  var_effect : string;
  new_aa : string;
  gene_start : int_value;
  gene_end : int_value;
  gene_nt : string;
  scaffold : string;
  scaff_len : int_value;
  scaff_start : int_value;
  scaff_end : int_value;
  scaff_nt : string;
  read_depth : int_value;
  alt_bases : option string;
  ref_alt_depth : option string
}.

(** ** Classification *)

(** [data['assembled'] > longest]: comparing ['.'] with an [int] raises. *)
Definition int_value_gt (v : int_value) (longest : Z) : result bool :=
  match v with
  | Int z => Return (longest <? z)
  | IntMissing => Raise TypeError
  end.

(** [identity <= self.min_id]: comparing ['.'] with a [float] raises. *)
Definition float_value_le (v : float_value) (min_id : float) : result bool :=
  match v with
  | Float x => Return (PrimFloat.leb x min_id)
  | FloatMissing => Raise TypeError
  end.

(** The loop body of [_pc_id_of_longest]; the state is
    [(longest, identity)], with [None] for Python's [None]. *)
Definition longest_step (st : Z * option float_value) (d : record)
    : result (Z * option float_value) :=
  b ← int_value_gt (assembled d) (fst st);
  match b, assembled d with
  | true, Int z => Return (z, Some (pc_ident d))
  | _, _ => Return st
  end.

Definition _pc_id_of_longest (l : list record) : result float_value :=
  st ← for_each longest_step l (0, None);
  match snd st with
  | None => Raise AssertionError
  | Some identity => Return identity
  end.

Definition _to_summary_number (min_id : float) (l : list record) : result Z :=
  match l with
  | [] => Raise IndexError
  | first :: _ =>
    let f := flag first in
    low ←
      (if has f "assembly_fail" then Return true
       else if negb (has f "gene_assembled") then Return true
       else identity ← _pc_id_of_longest l; float_value_le identity min_id);
    if low : bool then Return 0
    else if has f "hit_both_strands" || negb (has f "complete_orf") then Return 1
    else if has f "unique_contig" && has f "gene_assembled_into_one_contig"
            && has f "complete_orf"
    then (if has f "has_nonsynonymous_variants" then Return 3 else Return 4)
    else Return 2
  end.

(** A report line with the given flag, assembled length and identity. *)
Definition report_line (g : string) (f : Flag) (a : int_value) (p : float_value)
    : record :=
  {| gene := g; flag := f; reads := Int 100; cluster := "c1";
     gene_len := Int 500; assembled := a; pc_ident := p;
     var_type := "."; var_effect := "."; new_aa := ".";
     gene_start := IntMissing; gene_end := IntMissing; gene_nt := ".";
     scaffold := "."; scaff_len := IntMissing; scaff_start := IntMissing;
     scaff_end := IntMissing; scaff_nt := "."; read_depth := IntMissing;
     alt_bases := Some "."; ref_alt_depth := Some "." |}.

Definition clean_flag : Flag :=
  {[ "gene_assembled"; "complete_orf"; "unique_contig";
     "gene_assembled_into_one_contig" ]}.

(** Four report lines of one gene; the second and third tie for the
    greatest assembled length. *)
Definition two_hits : list record :=
  [ report_line "g" ∅ (Int 7) (Float 91); report_line "g" ∅ (Int 9) (Float 92);
    report_line "g" ∅ (Int 9) (Float 93); report_line "g" ∅ (Int 2) FloatMissing ].

(** The flags of the first two tests of [_to_summary_number]. *)
Definition flags_fail (f : Flag) : bool :=
  has f "assembly_fail" || negb (has f "gene_assembled").

(** The code that the flags alone decide, once the identity passed. *)
Definition code_of_flags (f : Flag) : Z :=
  if has f "hit_both_strands" || negb (has f "complete_orf") then 1
  else if has f "unique_contig" && has f "gene_assembled_into_one_contig"
          && has f "complete_orf"
  then (if has f "has_nonsynonymous_variants" then 3 else 4)
  else 2.

(** The record carries an integer assembled length. *)
Definition is_int (r : record) : Prop := ∃ z, assembled r = Int z.

(** ** The summary object *)

(** An element of a row of [rows_out]: a [str] (file or gene name) or an
    [int] (summary number). *)
Inductive cell : Type :=
  | Str (s : string)
  | Num (z : Z).

Global Instance cell_eq_dec : EqDecision cell.
Proof. solve_decision. Defined.
Global Instance cell_inhabited : Inhabited cell := populate (Num 0).

(** The attributes of a [Summary] object. *)
Record Summary : Type := {
  filenames : list string;
  filter_output : bool;
  min_id : float;
  outfile : string;
  js_candy_prefix : option string;
  data : gmap string (gmap string (list record));
  rows_out : list (list cell)
}.

Definition set_data (self : Summary) (d : gmap string (gmap string (list record)))
    : Summary :=
  {| filenames := filenames self; filter_output := filter_output self;
     min_id := min_id self; outfile := outfile self;
     js_candy_prefix := js_candy_prefix self; data := d;
     rows_out := rows_out self |}.

Definition set_rows_out (self : Summary) (rows : list (list cell)) : Summary :=
  {| filenames := filenames self; filter_output := filter_output self;
     min_id := min_id self; outfile := outfile self;
     js_candy_prefix := js_candy_prefix self; data := data self;
     rows_out := rows |}.

(** [l[i]], raising [IndexError] out of range ([i] is never negative here). *)
Definition index {A} (l : list A) (i : nat) : result A :=
  match l !! i with
  | Some x => Return x
  | None => Raise IndexError
  end.

(** [range(a, b)]. *)
Definition range (a b : nat) : list nat := seq a (b - a).

(** ** The matrix: [_gather_output_rows] *)

(** [all_genes]: the union of the keys of every loaded report, as a sorted
    list ([str] is ordered by code point, as [String.le]). *)
Definition all_genes_of (d : gmap string (gmap string (list record)))
    : list string :=
  let all_genes : gset string :=
    foldl (λ acc l, acc ∪ dom l) ∅ ((map_to_list d).*2) in
  merge_sort String.le (elements all_genes).

(** The inner loop: one cell per gene, appended to [new_row]. *)
Definition new_row_step (min_id : float)
    (d : gmap string (gmap string (list record))) (filename : string)
    (new_row : list cell) (g : string) : result (list cell) :=
  match d !! filename with
  | None => Raise (KeyError filename)
  | Some report =>
    match report !! g with
    | None => Return (new_row ++ [Num 0])
    | Some l => n ← _to_summary_number min_id l; Return (new_row ++ [Num n])
    end
  end.

(** The outer loop: one row per file name, appended to [rows_out]. *)
Definition rows_step (min_id : float)
    (d : gmap string (gmap string (list record))) (all_genes : list string)
    (rows : list (list cell)) (filename : string) : result (list (list cell)) :=
  new_row ← for_each (new_row_step min_id d filename) all_genes [Str filename];
  Return (rows ++ [new_row]).

(** [_gather_output_rows] after [self.data] is set. *)
Definition gather_rows_of_data (self : Summary) : result Summary :=
  let all_genes := all_genes_of (data self) in
  let rows := [Str "filename" :: (Str <$> all_genes)] in
  rows ← for_each (rows_step (min_id self) (data self) all_genes)
                  (filenames self) rows;
  Return (set_rows_out self rows).

(** ** The filter: [_filter_output_rows] *)

(** [x[1:] != [0]*(len(x)-1)]. *)
Definition not_all_zeros (x : list cell) : bool :=
  bool_decide (tail x ≠ replicate (length x - 1) (Num 0)).

(** [sum(cells)]: a [str] among the summands raises. *)
Definition py_sum (cells : list cell) : result Z :=
  for_each (λ acc c, match c with
                     | Num z => Return (acc + z)
                     | Str _ => Raise TypeError
                     end) cells 0.

(** [[x[i] for x in rows]]. *)
Definition column (i : nat) (rows : list (list cell)) : result (list cell) :=
  for_each (λ acc x, c ← index x i; Return (acc ++ [c])) rows [].

(** The loop that fills [to_remove]. *)
Definition to_remove_step (rows : list (list cell)) (to_remove : list nat)
    (i : nat) : result (list nat) :=
  col ← column i (tail rows);
  total ← py_sum col;
  if total =? 0 then Return (to_remove ++ [i]) else Return to_remove.

(** [[row[j] for j in range(len(row)) if j not in to_remove]]. *)
Definition without_columns (to_remove : list nat) (row : list cell)
    : list cell :=
  (λ j, row !!! j) <$>
    filter (λ j, j ∉ to_remove) (range 0 (length row)).

Definition _filter_output_rows (self : Summary) : result Summary :=
  if negb (filter_output self) then Return self
  else
    let rows := filter (λ x, not_all_zeros x = true) (rows_out self) in
    header ← index rows 0;
    to_remove ← for_each (to_remove_step rows) (range 1 (length header)) [];
    Return (set_rows_out self (without_columns to_remove <$> rows)).

(** ** The distance matrix *)

Definition _distance_score_between_values (value1 value2 : cell) : Z :=
  if bool_decide (value1 ≠ value2) && bool_decide (Num 0 ∈ [value1; value2])
  then 1 else 0.

Definition _distance_score_between_lists (scores1 scores2 : list cell)
    : result Z :=
  if bool_decide (length scores1 = length scores2) then
    Return (foldl Z.add 0
      ((λ i, _distance_score_between_values (scores1 !!! i) (scores2 !!! i))
         <$> range 1 (length scores1)))
  else Raise AssertionError.

Definition newline : string := String (Ascii.ascii_of_nat 10) "".
Definition tab : string := String (Ascii.ascii_of_nat 9) "".

(** [str(x)] for an element of a row. *)
Definition str (c : cell) : string :=
  match c with
  | Str s => s
  | Num z => pretty z
  end.

(** The line that [print] writes for the elements [xs] with [sep='\t'],
    without its end of line. *)
Definition print_tab (xs : list cell) : string := String.concat tab (str <$> xs).

(** The scores of one row against the rows [2 ..]. *)
Definition scores_step (rows : list (list cell)) (i : nat) (scores : list cell)
    (j : nat) : result (list cell) :=
  row_i ← index rows i;
  row_j ← index rows j;
  d ← _distance_score_between_lists row_i row_j;
  Return (scores ++ [Num d]).

Definition distance_line_step (rows : list (list cell)) (out : list string)
    (i : nat) : result (list string) :=
  scores ← for_each (scores_step rows i) (range 2 (length rows)) [];
  row_i ← index rows i;
  name ← index row_i 0;
  Return (out ++ [print_tab (name :: scores)]).

(** [_write_distance_matrix]: the lines written to [outfile].  Failures of
    the file system are not modelled. *)
Definition _write_distance_matrix (self : Summary) : result (list string) :=
  let rows := rows_out self in
  if bool_decide (length rows < 3)%nat then
    Raise (Error ("Cannot calculate distance matrix to make tree for js_candy."
                  +:+ newline +:+ "Only one sample present."))
  else
    header ← index rows 0;
    if bool_decide (length header < 2)%nat then
      Raise (Error ("Cannot calculate distance matrix to make tree for js_candy."
                    +:+ newline +:+ "No genes present in output"))
    else
      sample_names ← for_each (λ acc x, c ← index x 0; Return (acc ++ [c])) rows [];
      for_each (distance_line_step rows) (range 1 (length rows))
               [print_tab (tail sample_names)].

(** ** Reading a report: [_line2dict] and [_load_file] *)

Definition columns : list string :=
  [ "gene"; "flag"; "reads"; "cluster"; "gene_len"; "assembled"; "pc_ident";
    "var_type"; "var_effect"; "new_aa"; "gene_start"; "gene_end"; "gene_nt";
    "scaffold"; "scaff_len"; "scaff_start"; "scaff_end"; "scaff_nt";
    "read_depth"; "alt_bases"; "ref_alt_depth" ].

Definition int_columns : list string :=
  [ "reads"; "gene_len"; "assembled"; "gene_start"; "gene_end"; "scaff_len";
    "scaff_start"; "scaff_end"; "read_depth" ].

(** The characters that [str.isspace] accepts, among the code points below
    256: tab to carriage return, the four separators, the space, NEL and the
    no-break space. *)
Definition is_space (c : Ascii.ascii) : bool :=
  let n := Ascii.nat_of_ascii c in
  bool_decide (9 ≤ n ≤ 13 ∨ 28 ≤ n ≤ 32 ∨ n = 133 ∨ n = 160)%nat.

(** [s.rstrip()]. *)
Fixpoint rstrip (s : string) : string :=
  match s with
  | EmptyString => EmptyString
  | String c s' =>
    match rstrip s' with
    | EmptyString => if is_space c then EmptyString else String c EmptyString
    | r => String c r
    end
  end.

(** [s[1:]]. *)
Definition slice_from_1 (s : string) : string :=
  match s with
  | EmptyString => EmptyString
  | String _ s' => s'
  end.

(** [s.split('\t')]: never empty, [''] for the empty string. *)
Fixpoint split_tab (s : string) : list string :=
  match s with
  | EmptyString => [EmptyString]
  | String c s' =>
    if Ascii.eqb c (Ascii.ascii_of_nat 9) then EmptyString :: split_tab s'
    else match split_tab s' with
         | field :: fields => String c field :: fields
         | [] => [String c EmptyString]
         end
  end.

(** [line.startswith('#')]. *)
Definition startswith_hash (line : string) : bool := String.prefix "#" line.

(** The test of a line that starts with ['#']:
    [line.rstrip()[1:].split('\t') != columns]. *)
Definition header_mismatch (line : string) : bool :=
  bool_decide (split_tab (slice_from_1 (rstrip line)) ≠ columns).

Section reading.
(** [int(s)] and [float(s)] of Python, [None] when they raise; and the
    constructor [flag.Flag] of [ariba/flag.py]. *)
Variable py_int : string → option Z.
Variable py_float : string → option float.
Variable Flag_of_int : Z → result Flag.
(** [pyfastaq.utils.open_file_read]: the lines of a file, each with its
    end of line. *)
Variable open_file_read : string → result (list string).

(** [d[key]] on the dict of strings of [_line2dict]. *)
Definition getitem (d : gmap string string) (key : string) : result string :=
  match d !! key with
  | Some v => Return v
  | None => Raise (KeyError key)
  end.

(** One round of the loop over [int_columns]: the [KeyError] of a missing
    key is caught and raised again by the [assert]. *)
Definition int_column (d : gmap string string) (key : string)
    : result int_value :=
  v ← getitem d key;
  match py_int v with
  | Some z => Return (Int z)
  | None => if decide (v = ".") then Return IntMissing else Raise AssertionError
  end.

Definition float_column (d : gmap string string) (key : string)
    : result float_value :=
  v ← getitem d key;
  match py_float v with
  | Some x => Return (Float x)
  | None => if decide (v = ".") then Return FloatMissing
            else Raise AssertionError
  end.

Definition _line2dict (line : string) : result record :=
  let fields := split_tab (rstrip line) in
  if bool_decide (length columns < length fields)%nat then Raise IndexError
  else
    let d : gmap string string := list_to_map (zip columns fields) in
    flag_str ← getitem d "flag";
    flag_int ← (match py_int flag_str with
                | Some z => Return z
                | None => Raise ValueError
                end);
    f ← Flag_of_int flag_int;
    reads_v ← int_column d "reads";
    gene_len_v ← int_column d "gene_len";
    assembled_v ← int_column d "assembled";
    gene_start_v ← int_column d "gene_start";
    gene_end_v ← int_column d "gene_end";
    scaff_len_v ← int_column d "scaff_len";
    scaff_start_v ← int_column d "scaff_start";
    scaff_end_v ← int_column d "scaff_end";
    read_depth_v ← int_column d "read_depth";
    pc_ident_v ← float_column d "pc_ident";
    (* the string columns up to [read_depth] are present by now *)
    Return {| gene := d !!! "gene"; flag := f; reads := reads_v;
              cluster := d !!! "cluster"; gene_len := gene_len_v;
              assembled := assembled_v; pc_ident := pc_ident_v;
              var_type := d !!! "var_type"; var_effect := d !!! "var_effect";
              new_aa := d !!! "new_aa"; gene_start := gene_start_v;
              gene_end := gene_end_v; gene_nt := d !!! "gene_nt";
              scaffold := d !!! "scaffold"; scaff_len := scaff_len_v;
              scaff_start := scaff_start_v; scaff_end := scaff_end_v;
              scaff_nt := d !!! "scaff_nt"; read_depth := read_depth_v;
              alt_bases := d !! "alt_bases";
              ref_alt_depth := d !! "ref_alt_depth" |}.

(** The body of the loop over the lines of a report. *)
Definition load_step (d : gmap string (list record)) (line : string)
    : result (gmap string (list record)) :=
  if startswith_hash line then
    if header_mismatch line then
      Raise (Error ("Error parsing the following line." +:+ newline +:+ line))
    else Return d
  else
    r ← _line2dict line;
    let d' := match d !! gene r with
              | None => <[gene r := []]> d
              | Some _ => d
              end in
    Return (alter (λ l, l ++ [r]) (gene r) d').

Definition load_lines (lines : list string) : result (gmap string (list record)) :=
  for_each load_step lines ∅.

Definition _load_file (filename : string) : result (gmap string (list record)) :=
  lines ← open_file_read filename;
  load_lines lines.

(** [_gather_output_rows]: load every file into [self.data], then build
    the rows. *)
Definition _gather_output_rows (self : Summary) : result Summary :=
  d ← for_each (λ acc filename,
                  report ← _load_file filename;
                  Return (<[filename := report]> acc))
               (filenames self) ∅;
  gather_rows_of_data (set_data self d).
End reading.

(** What [_gather_output_rows] puts in the row of [filename] under the
    gene [g]: 0 when the report of the file has no entry for [g], and else the
    summary number of the entry. *)
Definition cell_of (min_id : float)
    (d : gmap string (gmap string (list record))) (filename g : string)
    (c : cell) : Prop :=
  ∃ report, d !! filename = Some report ∧
    match report !! g with
    | None => c = Num 0
    | Some l => ∃ n, _to_summary_number min_id l = Return n ∧ c = Num n
    end.

(** [[f(x) for x in l]], stopping at the first exception. *)
Fixpoint comprehension {A B} (f : A → result B) (l : list A) : result (list B) :=
  match l with
  | [] => Return []
  | x :: l' => y ← f x; ys ← comprehension f l'; Return (y :: ys)
  end.

(** Exactly one of the two cells is the number 0. *)
Definition exactly_one_zero (v1 v2 : cell) : bool :=
  xorb (bool_decide (v1 = Num 0)) (bool_decide (v2 = Num 0)).

(** The number of gene columns (every position but the first) at which
    exactly one of the two rows holds 0. *)
Definition disagreements (scores1 scores2 : list cell) : Z :=
  Z.of_nat (length (filter (λ p, exactly_one_zero p.1 p.2 = true)
                           (zip (tail scores1) (tail scores2)))).

(** Every row has the length of the first one: the shape of a summary
    matrix. *)
Definition rectangular (rows : list (list cell)) : Prop :=
  match rows with
  | [] => True
  | header :: rest => Forall (λ row, length row = length header) rest
  end.

(** A summary object that holds the given rows. *)
Definition summary_of_rows (rows : list (list cell)) : Summary :=
  {| filenames := []; filter_output := true; min_id := 90; outfile := "out.tsv";
     js_candy_prefix := None; data := ∅; rows_out := rows |}.

Definition three_samples : list (list cell) :=
  [ [Str "filename"; Str "g1"; Str "g2"; Str "g3"];
    [Str "a"; Num 4; Num 0; Num 0];
    [Str "b"; Num 0; Num 0; Num 0];
    [Str "c"; Num 1; Num 0; Num 2] ].

(** ** The filter as the spec words it *)

(** The cells of a row after its first one are all 0. *)
Definition all_zero_row (row : list cell) : Prop :=
  Forall (λ c, c = Num 0) (tail row).

Global Instance all_zero_row_dec row : Decision (all_zero_row row).
Proof. unfold all_zero_row. apply _. Defined.

(** Column [j] is 0 in every one of the given sample rows. *)
Definition all_zero_column (samples : list (list cell)) (j : nat) : Prop :=
  Forall (λ row, row !! j = Some (Num 0)) samples.

Global Instance all_zero_column_dec samples j :
  Decision (all_zero_column samples j).
Proof. unfold all_zero_column. apply _. Defined.

(** The filter on the spec's basis: the rows to drop and the gene columns
    to drop are both found on the unfiltered matrix, then both are
    dropped; the header row and the first column always stay. *)
Definition independent_filter (rows : list (list cell)) : list (list cell) :=
  match rows with
  | [] => []
  | header :: samples =>
    let zero_columns :=
      filter (all_zero_column samples) (range 1 (length header)) in
    let kept := filter (λ row, ¬ all_zero_row row) samples in
    without_columns zero_columns <$> (header :: kept)
  end.

(** The matrix of the given gene names and sample rows. *)
Definition summary_matrix (genes : list string) (body : list (string * list Z))
    : list (list cell) :=
  (Str "filename" :: (Str <$> genes))
    :: ((λ p, Str p.1 :: (Num <$> p.2)) <$> body).

(** Every sample has one summary number, not negative, per gene. *)
Definition well_formed (genes : list string) (body : list (string * list Z))
    : Prop :=
  Forall (λ p, length p.2 = length genes ∧ Forall (λ z, 0 ≤ z) p.2) body.

(** A row of the given length whose cells after the first are numbers that
    are not negative. *)
Definition sample_row (n : nat) (row : list cell) : Prop :=
  length row = n ∧ Forall (λ c, ∃ z, c = Num z ∧ 0 ≤ z) (tail row).

(** ** Writing the summary: [_write_tsv], [_write_js_candy_csv], [_write_xls] *)

(** [_write_tsv]: the text written to [outfile]: a ['#'] without end of
    line, then one tab-joined line per row. *)
Definition _write_tsv (self : Summary) : string :=
  foldl (λ out row, out +:+ print_tab row +:+ newline) "#" (rows_out self).

(** The line that [print] writes for the elements [xs] with [sep=','],
    without its end of line. *)
Definition print_comma (xs : list cell) : string :=
  String.concat "," (str <$> xs).

(** [_write_js_candy_csv]: the lines written to the csv file. *)
Definition _write_js_candy_csv (self : Summary) : result (list string) :=
  header ← index (rows_out self) 0;
  Return (foldl (λ out row, out ++ [print_comma row])
                [print_comma (Str "name" :: tail header)]
                (tail (rows_out self))).

(** What [run] leaves in [outfile]: the text of [_write_tsv], or the
    worksheet of [_write_xls] with its title and rows. *)
Inductive written : Type :=
  | Tsv (content : string)
  | Xls (title : string) (rows : list (list cell)).

Definition _write_xls (self : Summary) : written :=
  Xls "ARIBA_summary" (foldl (λ sheet row, sheet ++ [row]) [] (rows_out self)).

(** [s.endswith(suffix)]. *)
Fixpoint endswith (suffix s : string) : bool :=
  match s with
  | EmptyString => String.eqb suffix EmptyString
  | String _ s' => String.eqb s suffix || endswith suffix s'
  end.

Definition dquote : string := String (Ascii.ascii_of_nat 34) "".

(** ** The whole run: [__init__], [_load_fofn], [_check_files_exist], [run] *)

Section running.
Variable py_int : string → option Z.
Variable py_float : string → option float.
Variable Flag_of_int : Z → result Flag.
Variable open_file_read : string → result (list string).
(** [os.path.exists]. *)
Variable path_exists : string → bool.
(** [run] calls a method [_write_js_candy_files] that this file does not
    define. *)
Variable _write_js_candy_files : Summary → result unit.

Definition _load_fofn (fofn : string) : result (list string) :=
  lines ← open_file_read fofn;
  Return (rstrip <$> (lines : list string)).

(** The constructor; an argument left at [None] is [None] here.  The
    attributes [data] and [rows_out] are set later, by
    [_gather_output_rows].  That [extend] also lengthens the list of the
    caller is not modelled. *)
Definition __init__ (outfile' : string) (filenames' : option (list string))
    (fofn : option string) (filter_output' : bool)
    (js_candy_prefix' : option string) (min_id' : float) : result Summary :=
  match filenames', fofn with
  | None, None =>
    Raise (Error
      "Error! Must supply filenames or fofn to Summary(). Cannot continue")
  | _, _ =>
    let names := match filenames' with None => [] | Some names => names end in
    names ← match fofn with
            | None => Return names
            | Some fofn => more ← _load_fofn fofn; Return (names ++ more)
            end;
    Return {| filenames := names; filter_output := filter_output';
              min_id := min_id'; outfile := outfile';
              js_candy_prefix := js_candy_prefix'; data := ∅; rows_out := [] |}
  end.

Definition _check_files_exist (self : Summary) : result unit :=
  for_each (λ _ fname,
              if path_exists fname then Return ()
              else Raise (Error ("File not found: " +:+ dquote +:+ fname
                                 +:+ dquote +:+ ". Cannot continue")))
           (filenames self) ().

(** [run]: the summary object at the end and what was written to
    [outfile]. *)
Definition run (self : Summary) : result (Summary * written) :=
  _ ← _check_files_exist self;
  self ← _gather_output_rows py_int py_float Flag_of_int open_file_read self;
  self ← _filter_output_rows self;
  let out := if endswith ".xls" (outfile self) then _write_xls self
             else Tsv (_write_tsv self) in
  match js_candy_prefix self with
  | None => Return (self, out)
  | Some _ => _ ← _write_js_candy_files self; Return (self, out)
  end.
End running.

(** A summary object with two loaded reports, one of them empty. *)
Definition one_report : Summary :=
  {| filenames := ["s1"; "s2"]; filter_output := true; min_id := 90;
     outfile := "out.tsv"; js_candy_prefix := None;
     data := {[ "s1" := {[ "g" := [report_line "g" clean_flag (Int 500) (Float 99)] ]};
                "s2" := ∅ ]};
     rows_out := [] |}.

(** The records of gene [g] among [recs], in their order; [None] when
    there is none. *)
Definition group_of (recs : list record) (g : string) : option (list record) :=
  let group := filter (λ r, gene r = g) recs in
  if decide (group = []) then None else Some group.

(** The group of a gene after [more] records were appended to what a dict
    held for it [before]. *)
Definition extended (before : option (list record)) (more : list record)
    : option (list record) :=
  match before with
  | Some l => Some (l ++ more)
  | None => if decide (more = []) then None else Some more
  end.

(** Every character of [w] is white space. *)
Fixpoint all_space (w : string) : bool :=
  match w with
  | EmptyString => true
  | String c w' => is_space c && all_space w'
  end.

(** The string holds a tab. *)
Fixpoint has_tab (s : string) : bool :=
  match s with
  | EmptyString => false
  | String c s' => Ascii.eqb c (Ascii.ascii_of_nat 9) || has_tab s'
  end.

(** A report line of twenty fields, and readers of numbers that know the
    texts this line holds. *)
Definition twenty_fields : string :=
  String.concat tab
    [ "g1"; "27"; "1"; "c"; "1"; "1"; "."; "a"; "b"; "c";
      "1"; "1"; "x"; "y"; "1"; "1"; "1"; "z"; "1"; "q" ] +:+ newline.

Definition read_1_27 (s : string) : option Z :=
  if decide (s = "1") then Some 1
  else if decide (s = "27") then Some 27 else None.

Definition read_no_float (s : string) : option float := None.

Definition no_flags (n : Z) : result Flag := Return ∅.

(** Three report lines of one gene; the first of the two longest has no
    identity. *)
Definition missing_hit : list record :=
  [ report_line "g" clean_flag (Int 400) (Float 99);
    report_line "g" clean_flag (Int 500) FloatMissing;
    report_line "g" clean_flag (Int 500) (Float 98) ].


(** * Theorems *)

(** ** The loop of [_pc_id_of_longest] *)

Lemma for_each_app {A S} (body : S → A → result S) l1 l2 acc :
  for_each body (l1 ++ l2) acc = (acc' ← for_each body l1 acc; for_each body l2 acc').
Proof.
  revert acc. induction l1 as [|x l1 IH]; intros acc; simpl; [done|].
  destruct (body acc x); simpl; [apply IH|done].
Qed.

Lemma longest_step_int st r z :
  assembled r = Int z →
  longest_step st r =
    Return (if fst st <? z then (z, Some (pc_ident r)) else st).
Proof. intros Hz. unfold longest_step. rewrite Hz. simpl. by destruct (_ <? _). Qed.

Lemma longest_step_missing st r :
  assembled r = IntMissing → longest_step st r = Raise TypeError.
Proof. intros Hz. unfold longest_step. by rewrite Hz. Qed.

(** A missing assembled length anywhere in the list stops the loop. *)
Lemma longest_loop_missing l st :
  Exists (λ r, assembled r = IntMissing) l →
  for_each longest_step l st = Raise TypeError.
Proof.
  intros Hex. revert st. induction l as [|r l IH]; intros st; [by inv Hex|].
  simpl. destruct (assembled r) as [z|] eqn:Hr.
  - rewrite (longest_step_int _ _ z) by done. simpl. apply IH.
    inv Hex; [congruence|done].
  - by rewrite longest_step_missing.
Qed.

(** With integer lengths only, the loop ends in a state that either is the
    initial one (no length exceeded [longest]) or holds the first record of
    greatest length. *)
Lemma longest_loop_int l longest identity :
  Forall is_int l →
  ∃ longest' identity',
    for_each longest_step l (longest, identity) = Return (longest', identity') ∧
    (∀ r z, r ∈ l → assembled r = Int z → z ≤ longest') ∧
    ((longest' = longest ∧ identity' = identity) ∨
     (∃ (i : nat) r, l !! i = Some r ∧ assembled r = Int longest' ∧
        longest < longest' ∧ identity' = Some (pc_ident r) ∧
        ∀ (j : nat) r' z', (j < i)%nat → l !! j = Some r' →
          assembled r' = Int z' → z' < longest')).
Proof.
  intros Hint. revert longest identity.
  induction Hint as [|r l [z Hz] _ IH]; intros longest identity.
  { exists longest, identity. split; [done|]. split; [|by left].
    intros r z Hr. by apply elem_of_nil in Hr. }
  simpl. rewrite (longest_step_int _ _ z) by done. simpl.
  destruct (Z.ltb_spec longest z) as [Hlt|Hge].
  - destruct (IH z (Some (pc_ident r))) as (lg & id & Hrun & Hmax & Hsel).
    exists lg, id. split; [done|].
    assert (z ≤ lg) as Hzlg.
    { destruct Hsel as [[-> _]|(i & r' & _ & _ & Hlt' & _)]; lia. }
    split.
    + intros r' z' Hin Hz'. apply elem_of_cons in Hin as [->|Hin]; [|by eauto].
      rewrite Hz in Hz'. by simplify_eq.
    + right. destruct Hsel as [[-> ->]|(i & r' & Hi & Hr' & Hlt' & -> & Hfirst)].
      * exists 0%nat, r. split_and!; try done. intros j ??; lia.
      * exists (S i), r'. split_and!; try done; [lia|].
        intros [|j] r'' z'' Hj Hl Hz''; simpl in Hl.
        -- simplify_eq. rewrite Hz in Hz''. simplify_eq. lia.
        -- apply (Hfirst j r''); [lia|done..].
  - destruct (IH longest identity) as (lg & id & Hrun & Hmax & Hsel).
    exists lg, id. split; [done|].
    assert (longest ≤ lg) as Hlg.
    { destruct Hsel as [[-> _]|(i & r' & _ & _ & Hlt' & _)]; lia. }
    split.
    + intros r' z' Hin Hz'. apply elem_of_cons in Hin as [->|Hin]; [|by eauto].
      rewrite Hz in Hz'. simplify_eq. lia.
    + destruct Hsel as [[-> ->]|(i & r' & Hi & Hr' & Hlt' & -> & Hfirst)];
        [by left|right].
      exists (S i), r'. split_and!; try done.
      intros [|j] r'' z'' Hj Hl Hz''; simpl in Hl.
      * simplify_eq. rewrite Hz in Hz''. simplify_eq. lia.
      * apply (Hfirst j r''); [lia|done..].
Qed.

Lemma int_or_missing l :
  Forall is_int l ∨ Exists (λ r, assembled r = IntMissing) l.
Proof.
  induction l as [|r l [IH|IH]]; [by left| |by right; right].
  destruct (assembled r) as [z|] eqn:Hr.
  - left. constructor; [by exists z|done].
  - right. by left.
Qed.

(** ** Best identity: [_pc_id_of_longest] *)

(** C8 (amended): when every record has an integer assembled length and one
    of them is positive, [_pc_id_of_longest] returns the [pc_ident] of the
    record of greatest assembled length, the first such record in the order
    of the list. *)
Theorem pc_id_of_longest_first_greatest (l : list record) :
  Forall is_int l →
  Exists (λ r, ∃ z, assembled r = Int z ∧ 0 < z) l →
  ∃ (i : nat) r z,
    l !! i = Some r ∧ assembled r = Int z ∧
    _pc_id_of_longest l = Return (pc_ident r) ∧
    (∀ r' z', r' ∈ l → assembled r' = Int z' → z' ≤ z) ∧
    (∀ (j : nat) r' z', (j < i)%nat → l !! j = Some r' →
       assembled r' = Int z' → z' < z).
Proof.
  intros Hint Hpos. unfold _pc_id_of_longest.
  destruct (longest_loop_int l 0 None Hint) as (lg & id & -> & Hmax & Hsel).
  simpl. destruct Hsel as [[-> ->]|(i & r & Hi & Hr & _ & -> & Hfirst)].
  - apply Exists_exists in Hpos as (r & Hin & z & Hz & Hlt).
    specialize (Hmax r z Hin Hz). lia.
  - exists i, r, lg. by split_and!.
Qed.

Lemma pc_id_of_longest_first_greatest_witness :
  ∃ (i : nat) r z,
    two_hits !! i = Some r ∧ assembled r = Int z ∧
    _pc_id_of_longest two_hits = Return (pc_ident r) ∧
    (∀ r' z', r' ∈ two_hits → assembled r' = Int z' → z' ≤ z) ∧
    (∀ (j : nat) r' z', (j < i)%nat → two_hits !! j = Some r' →
       assembled r' = Int z' → z' < z).
Proof.
  apply (pc_id_of_longest_first_greatest two_hits).
  - repeat constructor; by eexists.
  - left. exists 7. by split.
Defined.

(** C8 as stated fails: a list whose only record has the integer length 0
    selects nothing, and a missing length next to an integer one raises
    [TypeError]. *)
Lemma pc_id_of_longest_counterexample :
  _pc_id_of_longest [report_line "g" ∅ (Int 0) (Float 99)] = Raise AssertionError ∧
  _pc_id_of_longest
    [report_line "g" ∅ (Int 5) (Float 99); report_line "g" ∅ IntMissing (Float 98)]
    = Raise TypeError.
Proof. split; reflexivity. Qed.

(** Two lists with the same assembled lengths drive the loop of
    [_pc_id_of_longest] alike: it raises the same exception, or ends with
    the same [longest] and with [identity] set in both or in neither. *)
Lemma longest_loop_same_lengths (l l' : list record) longest identity identity' :
  Forall2 (λ r r', assembled r = assembled r') l l' →
  (is_Some identity ↔ is_Some identity') →
  match for_each longest_step l (longest, identity),
        for_each longest_step l' (longest, identity') with
  | Return st, Return st' => st.1 = st'.1 ∧ (is_Some st.2 ↔ is_Some st'.2)
  | Raise e, Raise e' => e = e'
  | _, _ => False
  end.
Proof.
  intros Hsame. revert longest identity identity'.
  induction Hsame as [|r r' l l' Hr _ IH]; intros longest identity identity' Hid;
    simpl; [done|].
  destruct (assembled r') as [z|] eqn:Hr'.
  - rewrite (longest_step_int _ r z), (longest_step_int _ r' z) by done.
    simpl. destruct (longest <? z); [|by apply IH].
    apply IH. split; by eexists.
  - by rewrite (longest_step_missing _ r), (longest_step_missing _ r').
Qed.

(** C2 (amended): [_pc_id_of_longest] does not look at [pc_ident] when it
    selects.  Its assertion fails exactly when every assembled length is an
    integer that is not positive; whether and how it raises depends on the
    assembled lengths alone; and in a list of any length, with integer
    lengths of which one is positive, it returns the [pc_ident] of the first
    record of greatest length, be that the missing value or not.  When the
    missing value is returned and the flags pass, the classification fails
    with [TypeError] at the comparison with [min_id], not with the
    assertion. *)
Theorem pc_id_of_longest_assertion :
  (∀ l, _pc_id_of_longest l = Raise AssertionError ↔
        Forall (λ r, ∃ z, assembled r = Int z ∧ z ≤ 0) l) ∧
  (∀ l l', Forall2 (λ r r', assembled r = assembled r') l l' →
        ∀ e, _pc_id_of_longest l = Raise e ↔ _pc_id_of_longest l' = Raise e) ∧
  (∀ l, Forall is_int l →
        Exists (λ r, ∃ z, assembled r = Int z ∧ 0 < z) l →
        ∃ (i : nat) r z,
          l !! i = Some r ∧ assembled r = Int z ∧
          (∀ r' z', r' ∈ l → assembled r' = Int z' → z' ≤ z) ∧
          (∀ (j : nat) r' z', (j < i)%nat → l !! j = Some r' →
             assembled r' = Int z' → z' < z) ∧
          _pc_id_of_longest l = Return (pc_ident r)) ∧
  (∀ min_id first rest, flags_fail (flag first) = false →
        _pc_id_of_longest (first :: rest) = Return FloatMissing →
        _to_summary_number min_id (first :: rest) = Raise TypeError) ∧
  (∀ r z, assembled r = Int z → 0 < z →
        _pc_id_of_longest [r] = Return (pc_ident r)) ∧
  (∀ min_id r z, assembled r = Int z → 0 < z → pc_ident r = FloatMissing →
        flags_fail (flag r) = false →
        _to_summary_number min_id [r] = Raise TypeError).
Proof.
  split_and!.
  - intros l. unfold _pc_id_of_longest. split.
    + intros Hfail. destruct (int_or_missing l) as [Hint|Hmiss].
      * destruct (longest_loop_int l 0 None Hint) as (lg & id & Hrun & Hmax & Hsel).
        rewrite Hrun in Hfail. simpl in Hfail.
        destruct Hsel as [[-> ->]|(i & r & _ & _ & _ & -> & _)]; [|done].
        apply Forall_forall. intros r Hin.
        rewrite Forall_forall in Hint. destruct (Hint r Hin) as [z Hz].
        exists z. split; [done|]. by apply (Hmax r).
      * by rewrite (longest_loop_missing l _ Hmiss) in Hfail.
    + intros Hall.
      assert (Forall is_int l) as Hint.
      { eapply Forall_impl; [done|]. intros r (z & ? & _). by exists z. }
      destruct (longest_loop_int l 0 None Hint) as (lg & id & -> & Hmax & Hsel).
      simpl. destruct Hsel as [[-> ->]|(i & r & Hi & Hr & Hlt & _)]; [done|].
      rewrite Forall_forall in Hall.
      destruct (Hall r) as (z & Hz & Hle); [by eapply list_elem_of_lookup_2|].
      rewrite Hr in Hz. simplify_eq. lia.
  - intros l l' Hsame e. unfold _pc_id_of_longest.
    pose proof (longest_loop_same_lengths l l' 0 None None Hsame
                  (reflexivity _)) as Hloop.
    destruct (for_each longest_step l (0, None)) as [[lg id]|e1];
      destruct (for_each longest_step l' (0, None)) as [[lg' id']|e2];
      simpl in *; [|done|done|by subst].
    destruct Hloop as [_ Hid].
    destruct id as [v|], id' as [v'|]; simpl; [done| | |done].
    + destruct Hid as [Hid _]. by destruct Hid.
    + destruct Hid as [_ Hid]. by destruct Hid.
  - intros l Hint Hpos. unfold _pc_id_of_longest.
    destruct (longest_loop_int l 0 None Hint) as (lg & id & -> & Hmax & Hsel).
    simpl. destruct Hsel as [[-> ->]|(i & r & Hi & Hr & _ & -> & Hfirst)].
    + apply Exists_exists in Hpos as (r & Hin & z & Hz & Hlt).
      specialize (Hmax r z Hin Hz). lia.
    + exists i, r, lg. by split_and!.
  - intros min_id first rest Hflags Hmissing.
    unfold flags_fail in Hflags. apply orb_false_iff in Hflags as [Hf1 Hf2].
    unfold _to_summary_number. cbv zeta. by rewrite Hf1, Hf2, Hmissing.
  - intros r z Hz Hpos. unfold _pc_id_of_longest. simpl.
    rewrite (longest_step_int _ _ z) by done. simpl.
    by destruct (Z.ltb_spec 0 z); [|lia].
  - intros min_id r z Hz Hpos Hmiss Hflags.
    unfold flags_fail in Hflags. apply orb_false_iff in Hflags as [Hf1 Hf2].
    unfold _to_summary_number. rewrite Hf1, Hf2. simpl.
    unfold _pc_id_of_longest. simpl.
    rewrite (longest_step_int _ _ z) by done. simpl.
    destruct (Z.ltb_spec 0 z); [|lia]. simpl. by rewrite Hmiss.
Qed.

Lemma pc_id_of_longest_assertion_witness :
  _pc_id_of_longest [report_line "g" clean_flag (Int 0) (Float 99)]
    = Raise AssertionError ∧
  (∃ (i : nat) r z,
     missing_hit !! i = Some r ∧ assembled r = Int z ∧
     (∀ r' z', r' ∈ missing_hit → assembled r' = Int z' → z' ≤ z) ∧
     (∀ (j : nat) r' z', (j < i)%nat → missing_hit !! j = Some r' →
        assembled r' = Int z' → z' < z) ∧
     _pc_id_of_longest missing_hit = Return (pc_ident r)) ∧
  _pc_id_of_longest missing_hit = Return FloatMissing ∧
  _to_summary_number 90 missing_hit = Raise TypeError.
Proof.
  destruct pc_id_of_longest_assertion as (Hassert & _ & Hsel & Hcls & _ & _).
  split_and!.
  - apply Hassert. repeat constructor. exists 0. by split.
  - apply Hsel.
    + repeat constructor; by eexists.
    + left. exists 400. by split.
  - reflexivity.
  - by apply Hcls.
Defined.

(** C2 as stated fails: the record with the missing [pc_ident] is selected
    and the failure is a [TypeError], while a record that carries a
    [pc_ident] but has length 0 trips the assertion. *)
Lemma pc_id_of_longest_assertion_counterexample :
  _pc_id_of_longest
    [report_line "g" clean_flag (Int 500) FloatMissing;
     report_line "g" clean_flag (Int 400) (Float 99)] = Return FloatMissing ∧
  _to_summary_number 90 [report_line "g" clean_flag (Int 500) FloatMissing]
    = Raise TypeError ∧
  _pc_id_of_longest [report_line "g" clean_flag (Int 0) (Float 99)]
    = Raise AssertionError.
Proof. split_and!; reflexivity. Qed.

(** ** Classification: [_to_summary_number] *)

(** Equal floats compare as [<=] (neither is a NaN when [==] holds). *)
Lemma float_eqb_leb (x y : float) :
  PrimFloat.eqb x y = true → PrimFloat.leb x y = true.
Proof.
  rewrite FloatAxioms.eqb_spec, FloatAxioms.leb_spec. unfold SFeqb, SFleb.
  by destruct (SFcompare _ _) as [[]|].
Qed.

(** C1 (amended): on a non-empty list the code is 0 when the first record's
    flags say assembly failure or do not say gene-assembled, and the best
    identity is not looked at then.  Otherwise, when [_pc_id_of_longest]
    returns a float, the code is 0 if that float is [<=] the threshold (so
    also when it equals the threshold) and else the code that the flags
    decide: 1, then 3 or 4, then 2.  When [_pc_id_of_longest] raises, or
    returns the missing value, the classification raises as well. *)
Theorem to_summary_number_decision_tree
    (min_id : float) (first : record) (rest : list record) :
  (flags_fail (flag first) = true →
     _to_summary_number min_id (first :: rest) = Return 0) ∧
  (flags_fail (flag first) = false →
     ∀ x, _pc_id_of_longest (first :: rest) = Return (Float x) →
       _to_summary_number min_id (first :: rest) =
         Return (if PrimFloat.leb x min_id then 0
                 else code_of_flags (flag first)) ∧
       (PrimFloat.eqb x min_id = true →
          _to_summary_number min_id (first :: rest) = Return 0)) ∧
  (flags_fail (flag first) = false →
     ∀ e, _pc_id_of_longest (first :: rest) = Raise e →
       _to_summary_number min_id (first :: rest) = Raise e) ∧
  (flags_fail (flag first) = false →
     _pc_id_of_longest (first :: rest) = Return FloatMissing →
     _to_summary_number min_id (first :: rest) = Raise TypeError) ∧
  (code_of_flags (flag first) =
     if has (flag first) "hit_both_strands" || negb (has (flag first) "complete_orf")
     then 1
     else if has (flag first) "unique_contig"
             && has (flag first) "gene_assembled_into_one_contig"
             && has (flag first) "complete_orf"
     then (if has (flag first) "has_nonsynonymous_variants" then 3 else 4)
     else 2).
Proof.
  unfold _to_summary_number, flags_fail. cbv zeta.
  set (f := flag first). split_and!.
  - intros [->| ->%negb_true_iff]%orb_true_iff; [done|].
    by destruct (has f "assembly_fail").
  - intros [-> ->%negb_false_iff]%orb_false_iff x ->. simpl.
    assert (∀ b : bool,
      (if b then Return 0
       else if has f "hit_both_strands" || negb (has f "complete_orf")
       then Return 1
       else if has f "unique_contig" && has f "gene_assembled_into_one_contig"
               && has f "complete_orf"
       then (if has f "has_nonsynonymous_variants" then Return 3 else Return 4)
       else Return 2) = Return (if b then 0 else code_of_flags f)) as Hcode.
    { intros []; [done|]. unfold code_of_flags.
      by repeat (destruct (has f _); simpl). }
    split; [apply Hcode|].
    intros Heq%float_eqb_leb. by rewrite Heq.
  - by intros [-> ->%negb_false_iff]%orb_false_iff e ->.
  - by intros [-> ->%negb_false_iff]%orb_false_iff ->.
  - done.
Qed.

Lemma to_summary_number_decision_tree_witness :
  _to_summary_number 90 [report_line "g" ∅ (Int 0) FloatMissing] = Return 0 ∧
  _to_summary_number 90 [report_line "g" clean_flag (Int 500) (Float 99)] = Return 4 ∧
  _to_summary_number 90 [report_line "g" clean_flag (Int 500) (Float 90)] = Return 0 ∧
  _to_summary_number 90 [report_line "g" clean_flag (Int 0) (Float 99)]
    = Raise AssertionError.
Proof.
  split_and!.
  - destruct (to_summary_number_decision_tree 90
                (report_line "g" ∅ (Int 0) FloatMissing) []) as (H & _).
    by apply H.
  - destruct (to_summary_number_decision_tree 90
                (report_line "g" clean_flag (Int 500) (Float 99)) [])
      as (_ & H & _).
    by destruct (H eq_refl 99%float eq_refl) as [-> _].
  - destruct (to_summary_number_decision_tree 90
                (report_line "g" clean_flag (Int 500) (Float 90)) [])
      as (_ & H & _).
    by destruct (H eq_refl 90%float eq_refl) as [_ ->].
  - destruct (to_summary_number_decision_tree 90
                (report_line "g" clean_flag (Int 0) (Float 99)) [])
      as (_ & _ & H & _).
    by apply H.
Defined.

(** C1 as stated fails: the only record is the longest assembly, its identity
    99 is above the threshold 90 and its flags lead to code 4, yet the
    classification raises because the length 0 is never selected. *)
Lemma to_summary_number_counterexample :
  let l := [report_line "g" clean_flag (Int 0) (Float 99)] in
  flags_fail clean_flag = false ∧
  PrimFloat.leb 99 90 = false ∧
  code_of_flags clean_flag = 4 ∧
  _to_summary_number 90 l = Raise AssertionError.
Proof. split_and!; reflexivity. Qed.

(** ** Loops that append *)

Lemma for_each_ext {A S} (body body' : S → A → result S) l acc :
  (∀ acc x, x ∈ l → body acc x = body' acc x) →
  for_each body l acc = for_each body' l acc.
Proof.
  revert acc. induction l as [|x l IH]; intros acc Hext; simpl; [done|].
  rewrite <-Hext by left. destruct (body acc x); simpl; [|done].
  apply IH. intros acc' y Hy. apply Hext. by right.
Qed.

(** A loop whose body appends [f x] computes the comprehension. *)
Lemma for_each_append {A B} (f : A → result B) l acc :
  for_each (λ acc x, y ← f x; Return (acc ++ [y])) l acc =
  (ys ← comprehension f l; Return (acc ++ ys)).
Proof.
  revert acc. induction l as [|x l IH]; intros acc; simpl.
  { by rewrite app_nil_r. }
  destruct (f x) as [y|e]; simpl; [|done].
  rewrite IH. destruct (comprehension f l); simpl; [|done].
  by rewrite <-app_assoc.
Qed.

Lemma comprehension_Return {A B} (f : A → result B) l ys :
  comprehension f l = Return ys ↔ Forall2 (λ x y, f x = Return y) l ys.
Proof.
  revert ys. induction l as [|x l IH]; intros ys; simpl.
  { split; [intros [= <-]; constructor|by inv 1]. }
  split.
  - destruct (f x) as [y|e] eqn:Hy; simpl; [|done].
    destruct (comprehension f l) as [ys'|e] eqn:Hys; simpl; [|done].
    intros [= <-]. constructor; [done|]. by apply IH.
  - inv 1 as [|?? y ys' Hy Hys]. rewrite Hy. simpl.
    apply IH in Hys as ->. done.
Qed.

Lemma for_each_append_Return {A B} (f : A → result B) l acc r :
  for_each (λ acc x, y ← f x; Return (acc ++ [y])) l acc = Return r ↔
  ∃ ys, r = acc ++ ys ∧ Forall2 (λ x y, f x = Return y) l ys.
Proof.
  rewrite for_each_append. split.
  - destruct (comprehension f l) as [ys|] eqn:Hys; simpl; [|done].
    intros [= <-]. exists ys. split; [done|]. by apply comprehension_Return.
  - intros (ys & -> & Hys). by apply comprehension_Return in Hys as ->.
Qed.

Lemma comprehension_pure {A B} (f : A → B) l :
  comprehension (λ x, Return (f x)) l = Return (f <$> l).
Proof. induction l as [|x l IH]; simpl; [done|]. by rewrite IH. Qed.

(** ** The matrix: [_gather_output_rows] *)

Lemma elem_of_foldl_union_dom (ls : list (gmap string (list record)))
    (acc : gset string) g :
  g ∈ foldl (λ acc l, acc ∪ dom l) acc ls ↔ g ∈ acc ∨ ∃ l, l ∈ ls ∧ g ∈ dom l.
Proof.
  revert acc. induction ls as [|l ls IH]; intros acc; simpl.
  { split; [by left|]. intros [?|(l & Hl & _)]; [done|]. by apply elem_of_nil in Hl. }
  rewrite IH, elem_of_union. split.
  - intros [[?|?]|(l' & ? & ?)]; [by left|right..].
    + exists l. split; [left|done].
    + exists l'. split; [by right|done].
  - intros [?|(l' & [->|?]%elem_of_cons & ?)]; [by left; left|by left; right|].
    right. by exists l'.
Qed.

Lemma elem_of_all_genes_of (d : gmap string (gmap string (list record))) g :
  g ∈ all_genes_of d ↔ ∃ f report, d !! f = Some report ∧ is_Some (report !! g).
Proof.
  unfold all_genes_of. rewrite merge_sort_Permutation, elem_of_elements.
  rewrite elem_of_foldl_union_dom. split.
  - intros [Hemp|(l & Hl & Hg)]; [by apply elem_of_empty in Hemp|].
    apply list_elem_of_fmap in Hl as ([f report] & -> & Hin).
    apply elem_of_map_to_list in Hin. exists f, report.
    split; [done|]. by apply elem_of_dom.
  - intros (f & report & Hf & Hg). right. exists report. split.
    + apply list_elem_of_fmap. exists (f, report). split; [done|].
      by apply elem_of_map_to_list.
    + by apply elem_of_dom.
Qed.


Lemma new_row_step_append min_id d filename new_row g :
  new_row_step min_id d filename new_row g =
  (c ← match d !! filename with
       | None => Raise (KeyError filename)
       | Some report =>
         match report !! g with
         | None => Return (Num 0)
         | Some l => n ← _to_summary_number min_id l; Return (Num n)
         end
       end; Return (new_row ++ [c])).
Proof.
  unfold new_row_step. destruct (d !! filename) as [report|]; [|done].
  destruct (report !! g) as [l|]; [|done].
  by destruct (_to_summary_number min_id l).
Qed.

Lemma new_row_step_Return min_id d filename g c :
  match d !! filename with
  | None => Raise (KeyError filename)
  | Some report =>
    match report !! g with
    | None => Return (Num 0)
    | Some l => n ← _to_summary_number min_id l; Return (Num n)
    end
  end = Return c ↔ cell_of min_id d filename g c.
Proof.
  unfold cell_of. destruct (d !! filename) as [report|] eqn:Hf.
  - split.
    + intros Hc. exists report. split; [done|].
      destruct (report !! g) as [l|]; [|congruence].
      destruct (_to_summary_number min_id l) as [n|e]; simpl in Hc; [|done].
      exists n. split; congruence.
    + intros (report' & [= <-] & Hc).
      destruct (report !! g) as [l|]; [|congruence].
      destruct Hc as (n & -> & ->). done.
  - split; [done|]. by intros (report & ? & _).
Qed.

Lemma Forall2_iff {A B} (P Q : A → B → Prop) l k :
  (∀ x y, P x y ↔ Q x y) → Forall2 P l k ↔ Forall2 Q l k.
Proof.
  intros HPQ. split; intros H; (eapply Forall2_impl; [exact H|]);
    intros x y; apply HPQ.
Qed.


(** ** The distance between two rows *)

Lemma distance_score_between_values_spec v1 v2 :
  _distance_score_between_values v1 v2 = if exactly_one_zero v1 v2 then 1 else 0.
Proof.
  unfold _distance_score_between_values, exactly_one_zero.
  repeat case_bool_decide; simpl; try done; exfalso;
    repeat match goal with
    | H : _ ∈ _ :: _ |- _ => apply elem_of_cons in H as [H|H]
    | H : _ ∈ [] |- _ => by apply elem_of_nil in H
    | H : ¬ (_ ∈ _ :: _) |- _ => apply not_elem_of_cons in H as [? ?]
    | H : ¬ (_ ≠ _) |- _ => apply dec_stable in H
    end; congruence.
Qed.

Lemma foldl_add_indicator {A} (P : A → bool) (l : list A) acc :
  foldl Z.add acc ((λ p, if P p then 1 else 0) <$> l) =
  acc + Z.of_nat (length (filter (λ p, P p = true) l)).
Proof.
  revert acc. induction l as [|x l IH]; intros acc; simpl; [lia|].
  rewrite IH, filter_cons. destruct (P x) eqn:HP.
  - rewrite decide_True by done. simpl length. lia.
  - rewrite decide_False by congruence. lia.
Qed.

(** A loop over the indices of two lists of one length is a loop over their
    pairs. *)
Lemma fmap_seq_zip {C} (g : cell → cell → C) (a b : list cell) :
  length a = length b →
  (λ i, g (a !!! i) (b !!! i)) <$> seq 0 (length a) =
  (λ p, g p.1 p.2) <$> zip a b.
Proof.
  revert b. induction a as [|x a IH]; intros [|y b] Hlen; simplify_eq/=; [done|].
  f_equal. rewrite <-fmap_S_seq, <-list_fmap_compose. by apply IH.
Qed.

Lemma range_1_tail {C} (g : cell → cell → C) (s1 s2 : list cell) :
  length s1 = length s2 →
  (λ i, g (s1 !!! i) (s2 !!! i)) <$> range 1 (length s1) =
  (λ p, g p.1 p.2) <$> zip (tail s1) (tail s2).
Proof.
  unfold range. destruct s1 as [|x a], s2 as [|y b]; intros Hlen;
    simplify_eq/=; [done|].
  rewrite Nat.sub_0_r.
  rewrite <-fmap_S_seq, <-list_fmap_compose. by apply fmap_seq_zip.
Qed.

Lemma distance_score_between_lists_Return s1 s2 :
  length s1 = length s2 →
  _distance_score_between_lists s1 s2 = Return (disagreements s1 s2).
Proof.
  intros Hlen. unfold _distance_score_between_lists, disagreements.
  rewrite bool_decide_eq_true_2 by done. f_equal.
  rewrite (range_1_tail _ _ _ Hlen).
  rewrite (list_fmap_ext _ (λ p, if exactly_one_zero p.1 p.2 then 1 else 0)
             (zip (tail s1) (tail s2)))
    by (intros; apply distance_score_between_values_spec).
  rewrite (foldl_add_indicator (λ p, exactly_one_zero p.1 p.2)). lia.
Qed.

Lemma exactly_one_zero_comm v1 v2 : exactly_one_zero v1 v2 = exactly_one_zero v2 v1.
Proof. unfold exactly_one_zero. apply xorb_comm. Qed.

Lemma disagreements_comm s1 s2 : disagreements s1 s2 = disagreements s2 s1.
Proof.
  unfold disagreements. f_equal.
  generalize (tail s1) (tail s2). clear. intros a.
  induction a as [|x a IH]; intros [|y b]; simpl; try done.
  rewrite !filter_cons. simpl. rewrite (exactly_one_zero_comm y x).
  destruct (decide _); simpl; by rewrite IH.
Qed.

Lemma disagreements_diag s : disagreements s s = 0.
Proof.
  unfold disagreements. generalize (tail s). clear. intros a.
  induction a as [|x a IH]; simpl; [done|].
  rewrite filter_cons. simpl. rewrite decide_False; [done|].
  unfold exactly_one_zero. by rewrite xorb_nilpotent.
Qed.

(** C5: for two rows of one length the score is the number of gene columns
    at which exactly one of the two cells is 0; a column whose two cells are
    both non-zero, or equal, adds nothing; the score is symmetric, and the
    score of a row against itself is 0. *)
Theorem distance_score_between_lists_count (scores1 scores2 : list cell) :
  length scores1 = length scores2 →
  _distance_score_between_lists scores1 scores2
    = Return (disagreements scores1 scores2) ∧
  (∀ v1 v2, _distance_score_between_values v1 v2 =
            if exactly_one_zero v1 v2 then 1 else 0) ∧
  (∀ v1 v2, v1 ≠ Num 0 → v2 ≠ Num 0 →
            _distance_score_between_values v1 v2 = 0) ∧
  (∀ v, _distance_score_between_values v v = 0) ∧
  _distance_score_between_lists scores1 scores2
    = _distance_score_between_lists scores2 scores1 ∧
  _distance_score_between_lists scores1 scores1 = Return 0.
Proof.
  intros Hlen. split_and!.
  - by apply distance_score_between_lists_Return.
  - apply distance_score_between_values_spec.
  - intros v1 v2 H1 H2. rewrite distance_score_between_values_spec.
    unfold exactly_one_zero. by rewrite !bool_decide_eq_false_2.
  - intros v. rewrite distance_score_between_values_spec.
    unfold exactly_one_zero. by rewrite xorb_nilpotent.
  - rewrite !distance_score_between_lists_Return by done.
    by rewrite disagreements_comm.
  - rewrite distance_score_between_lists_Return by done.
    by rewrite disagreements_diag.
Qed.

Lemma distance_score_between_lists_count_witness :
  _distance_score_between_lists
    [Str "a"; Num 4; Num 0; Num 0; Num 3]
    [Str "c"; Num 1; Num 0; Num 2; Num 0] = Return 2.
Proof.
  by destruct (distance_score_between_lists_count
                 [Str "a"; Num 4; Num 0; Num 0; Num 3]
                 [Str "c"; Num 1; Num 0; Num 2; Num 0] eq_refl) as [-> _].
Defined.

(** ** The distance matrix file: [_write_distance_matrix] *)

Lemma comprehension_fmap {A B} (f : A → result B) (h : A → B) (l : list A) :
  (∀ x, x ∈ l → f x = Return (h x)) → comprehension f l = Return (h <$> l).
Proof.
  induction l as [|x l IH]; intros Hf; simpl; [done|].
  rewrite Hf by left. simpl. rewrite IH; [done|].
  intros y Hy. apply Hf. by right.
Qed.

(** A comprehension over the indices of a list is one over its elements. *)
Lemma comprehension_seq {B C} (f : nat → result C) (h : B → C) (l : list B)
    (start : nat) :
  (∀ k x, l !! k = Some x → f (start + k)%nat = Return (h x)) →
  comprehension f (seq start (length l)) = Return (h <$> l).
Proof.
  revert start. induction l as [|x l IH]; intros start Hf; simpl; [done|].
  rewrite <-(Nat.add_0_r start) at 1. rewrite (Hf 0%nat x) by done. simpl.
  rewrite IH; [done|]. intros k y Hk.
  replace (S start + k)%nat with (start + S k)%nat by lia. by apply Hf.
Qed.

Lemma index_Some {A} (l : list A) i x : l !! i = Some x → index l i = Return x.
Proof. unfold index. by intros ->. Qed.

Lemma index_0_nonempty (row : list cell) :
  (0 < length row)%nat → index row 0 = Return (row !!! 0%nat).
Proof. destruct row; simpl; [lia|done]. Qed.

Lemma scores_step_append rows i scores j :
  scores_step rows i scores j =
  (c ← (row_i ← index rows i; row_j ← index rows j;
        d ← _distance_score_between_lists row_i row_j; Return (Num d));
   Return (scores ++ [c])).
Proof.
  unfold scores_step. destruct (index rows i) as [row_i|]; simpl; [|done].
  destruct (index rows j) as [row_j|]; simpl; [|done].
  by destruct (_distance_score_between_lists row_i row_j).
Qed.

Lemma distance_line_step_append rows out i :
  distance_line_step rows out i =
  (ln ← (scores ← for_each (scores_step rows i) (range 2 (length rows)) [];
         row_i ← index rows i; name ← index row_i 0;
         Return (print_tab (name :: scores)));
   Return (out ++ [ln])).
Proof.
  unfold distance_line_step. destruct (for_each _ _ _) as [scores|]; simpl; [|done].
  destruct (index rows i) as [row_i|]; simpl; [|done].
  by destruct (index row_i 0).
Qed.

(** What is written for a matrix with a header row of at least two columns
    and at least two further rows, all of one length. *)
Lemma write_distance_matrix_rectangular (self : Summary) header samples :
  rows_out self = header :: samples →
  (2 ≤ length samples)%nat →
  (2 ≤ length header)%nat →
  Forall (λ row, length row = length header) samples →
  _write_distance_matrix self =
  Return (print_tab ((λ s, s !!! 0%nat) <$> samples) ::
          ((λ s, print_tab (s !!! 0%nat ::
                   ((λ s', Num (disagreements s s')) <$> tail samples)))
             <$> samples)).
Proof.
  intros Hrows Hn Hcols Hrect. unfold _write_distance_matrix. cbv zeta.
  rewrite Hrows. rewrite bool_decide_eq_false_2 by (simpl; lia).
  rewrite (index_Some _ 0 header) by done. cbn [mbind result_bind].
  rewrite bool_decide_eq_false_2 by lia.
  rewrite for_each_append.
  rewrite (comprehension_fmap _ (λ s, s !!! 0%nat)).
  2:{ intros row [->|Hrow]%elem_of_cons; apply index_0_nonempty; [lia|].
      rewrite Forall_forall in Hrect. rewrite (Hrect row Hrow). lia. }
  cbn [mbind result_bind app fmap list_fmap tail].
  rewrite (for_each_ext _ _ _ _
             (λ acc i _, distance_line_step_append (header :: samples) acc i)).
  rewrite for_each_append.
  replace (range 1 (length (header :: samples))) with (seq 1 (length samples))
    by (unfold range; simpl; f_equal; lia).
  replace (range 2 (length (header :: samples)))
    with (seq 2 (length (tail samples)))
    by (unfold range; destruct samples; simpl; f_equal; lia).
  rewrite (comprehension_seq _
             (λ s, print_tab (s !!! 0%nat ::
                     ((λ s', Num (disagreements s s')) <$> tail samples)))).
  { done. }
  intros k s Hk. simpl.
  rewrite (for_each_ext _ _ _ _
             (λ acc j _, scores_step_append (header :: samples) (S k) acc j)).
  rewrite for_each_append.
  assert (length s = length header) as Hs.
  { rewrite Forall_forall in Hrect. apply Hrect. by eapply list_elem_of_lookup_2. }
  rewrite (comprehension_seq _ (λ s', Num (disagreements s s'))).
  - rewrite (index_Some (header :: samples) (S k) s) by exact Hk.
    cbn [mbind result_bind]. by rewrite index_0_nonempty by lia.
  - intros j s' Hj.
    rewrite (index_Some (header :: samples) (S k) s) by exact Hk.
    assert (samples !! S j = Some s') as Hj'.
    { by destruct samples. }
    rewrite (index_Some (header :: samples) (2 + j) s') by exact Hj'.
    cbn [mbind result_bind].
    rewrite distance_score_between_lists_Return; [done|].
    rewrite Hs. symmetry. rewrite Forall_forall in Hrect. apply Hrect.
    by eapply list_elem_of_lookup_2.
Qed.

(** C6: on a matrix whose rows have one length, [_write_distance_matrix]
    raises exactly when there are fewer than three rows (the header and two
    samples) or the header has fewer than two columns (no gene); what it
    raises is an [Error]; and a matrix with the header and one sample makes
    it raise. *)
Theorem write_distance_matrix_precondition (self : Summary) :
  rectangular (rows_out self) →
  ((∃ e, _write_distance_matrix self = Raise e) ↔
     (length (rows_out self) < 3)%nat ∨
     (∃ header, rows_out self !! 0%nat = Some header ∧ (length header < 2)%nat)) ∧
  (∀ e, _write_distance_matrix self = Raise e → ∃ msg, e = Error msg) ∧
  ((length (rows_out self) < 3)%nat →
     ∃ msg, _write_distance_matrix self = Raise (Error msg)).
Proof.
  intros Hrect.
  assert ((length (rows_out self) < 3)%nat →
          ∃ msg, _write_distance_matrix self = Raise (Error msg)) as Hfew.
  { intros Hlen. unfold _write_distance_matrix. cbv zeta.
    rewrite bool_decide_eq_true_2 by done. by eexists. }
  assert (∀ header, rows_out self !! 0%nat = Some header →
          (length header < 2)%nat →
          ∃ msg, _write_distance_matrix self = Raise (Error msg)) as Hnogene.
  { intros header Hhd Hlen.
    destruct (decide (length (rows_out self) < 3)%nat) as [?|Hge]; [by apply Hfew|].
    unfold _write_distance_matrix. cbv zeta.
    rewrite bool_decide_eq_false_2 by done.
    rewrite (index_Some _ _ header) by done. cbn [mbind result_bind].
    rewrite bool_decide_eq_true_2 by done. by eexists. }
  assert ((∃ lines, _write_distance_matrix self = Return lines) ∨
          (length (rows_out self) < 3)%nat ∨
          (∃ header, rows_out self !! 0%nat = Some header ∧
                     (length header < 2)%nat)) as Hcases.
  { destruct (decide (length (rows_out self) < 3)%nat) as [?|Hge]; [by right; left|].
    destruct (rows_out self) as [|header samples] eqn:Hrows; [simpl in Hge; lia|].
    destruct (decide (length header < 2)%nat) as [?|Hcols].
    { right; right. by exists header. }
    left. eexists. apply (write_distance_matrix_rectangular self header samples).
    - done.
    - simpl in Hge. lia.
    - lia.
    - exact Hrect. }
  split_and!; [split| |done].
  - intros [e He]. destruct Hcases as [[lines Hok]|?]; [congruence|done].
  - intros [Hlen|(header & Hhd & Hlen)].
    + destruct (Hfew Hlen) as [msg ->]. by eexists.
    + destruct (Hnogene header Hhd Hlen) as [msg ->]. by eexists.
  - intros e He.
    destruct Hcases as [[lines Hok]|[Hlen|(header & Hhd & Hlen)]]; [congruence| |].
    + destruct (Hfew Hlen) as [msg Hmsg]. exists msg. congruence.
    + destruct (Hnogene header Hhd Hlen) as [msg Hmsg]. exists msg. congruence.
Qed.

Lemma write_distance_matrix_precondition_witness :
  (∃ msg, _write_distance_matrix
            (summary_of_rows [[Str "filename"; Str "g1"]; [Str "a"; Num 4]])
          = Raise (Error msg)) ∧
  ¬ ∃ e, _write_distance_matrix (summary_of_rows three_samples) = Raise e.
Proof.
  split.
  - apply (write_distance_matrix_precondition
             (summary_of_rows [[Str "filename"; Str "g1"]; [Str "a"; Num 4]])).
    + repeat constructor.
    + simpl. lia.
  - destruct (write_distance_matrix_precondition
                (summary_of_rows three_samples)) as ([Hraise _] & _).
    + repeat constructor.
    + intros He. destruct (Hraise He) as [Hlen|(header & Hhd & Hlen)].
      * simpl in Hlen. lia.
      * simpl in Hhd. injection Hhd as <-. simpl in Hlen. lia.
Defined.

(** C9 (amended): for a matrix with a header of at least one gene and N >= 2
    sample rows of the header's length, the first line written lists the
    identifiers of all N samples (what is left out is the header's own label
    [filename]), and the line of each sample, in row order, is its identifier
    followed by its scores against the samples 2 .. N in row order, all
    joined by tabs. *)
Theorem write_distance_matrix_lines (self : Summary) header samples :
  rows_out self = header :: samples →
  (2 ≤ length samples)%nat →
  (2 ≤ length header)%nat →
  Forall (λ row, length row = length header) samples →
  ∃ lines,
    _write_distance_matrix self =
      Return (String.concat tab (str <$> ((λ s, s !!! 0%nat) <$> samples))
              :: lines) ∧
    length lines = length samples ∧
    ∀ (i : nat) s, samples !! i = Some s →
      ∃ scores,
        lines !! i = Some (String.concat tab (str <$> (s !!! 0%nat :: scores))) ∧
        Forall2 (λ s' c, ∃ d, _distance_score_between_lists s s' = Return d ∧
                              c = Num d)
                (drop 1 samples) scores.
Proof.
  intros Hrows Hn Hcols Hrect.
  rewrite (write_distance_matrix_rectangular self header samples) by done.
  eexists. split; [reflexivity|]. split; [by rewrite length_fmap|].
  intros i s Hi. exists ((λ s', Num (disagreements s s')) <$> tail samples).
  split.
  - rewrite list_lookup_fmap, Hi. done.
  - replace (drop 1 samples) with (tail samples) by by destruct samples.
    apply Forall2_fmap_r, Forall_Forall2_diag, Forall_forall.
    intros s' Hs'. exists (disagreements s s'). split; [|done].
    apply distance_score_between_lists_Return.
    rewrite Forall_forall in Hrect.
    rewrite (Hrect s) by by eapply list_elem_of_lookup_2.
    symmetry. apply Hrect. destruct samples; [done|]. by right.
Qed.

Lemma write_distance_matrix_lines_witness :
  ∃ lines,
    _write_distance_matrix (summary_of_rows three_samples) =
      Return (String.concat tab ["a"; "b"; "c"] :: lines) ∧
    length lines = 3%nat.
Proof.
  destruct (write_distance_matrix_lines (summary_of_rows three_samples)
              [Str "filename"; Str "g1"; Str "g2"; Str "g3"]
              [ [Str "a"; Num 4; Num 0; Num 0];
                [Str "b"; Num 0; Num 0; Num 0];
                [Str "c"; Num 1; Num 0; Num 2] ])
    as (lines & Hlines & Hlen & _).
  - reflexivity.
  - simpl. lia.
  - simpl. lia.
  - repeat constructor.
  - exists lines. by split.
Defined.

(** C9 as stated fails: with the three samples [a], [b], [c] the first line
    lists all three identifiers and not only [b] and [c]. *)
Lemma write_distance_matrix_lines_counterexample :
  _write_distance_matrix (summary_of_rows three_samples) =
    Return [ String.concat tab ["a"; "b"; "c"];
             String.concat tab ["a"; "1"; "1"];
             String.concat tab ["b"; "0"; "2"];
             String.concat tab ["c"; "2"; "0"] ] ∧
  String.concat tab ["a"; "b"; "c"] ≠ String.concat tab ["b"; "c"].
Proof. split; [reflexivity|discriminate]. Qed.

(** ** Reading a report: the lines that start with ['#'] *)

Section reading_theorems.
Variable py_int : string → option Z.
Variable py_float : string → option float.
Variable Flag_of_int : Z → result Flag.

Local Abbreviation line2dict := (_line2dict py_int py_float Flag_of_int).
Local Abbreviation step := (load_step py_int py_float Flag_of_int).
Local Abbreviation load := (load_lines py_int py_float Flag_of_int).

(** The records of [d'] that are not in [d] come from [line]. *)
Lemma load_step_records d line d' g recs' :
  step d line = Return d' → d' !! g = Some recs' →
  (startswith_hash line = true ∧ header_mismatch line = false ∧ d' = d) ∨
  (startswith_hash line = false ∧
   ∃ r, line2dict line = Return r ∧
     (g ≠ gene r ∧ d !! g = Some recs' ∨
      g = gene r ∧ recs' = default [] (d !! g) ++ [r])).
Proof.
  unfold load_step. destruct (startswith_hash line).
  { destruct (header_mismatch line); [done|]. intros [= <-] _. by left. }
  destruct (line2dict line) as [r|] eqn:Hr; simpl; [|done].
  intros [= <-] Hg. right. split; [done|]. exists r. split; [done|].
  destruct (decide (g = gene r)) as [->|Hne].
  - right. split; [done|]. rewrite lookup_alter_eq in Hg.
    destruct (d !! gene r) as [recs|] eqn:Hd; simpl.
    + rewrite Hd in Hg. simpl in Hg. congruence.
    + rewrite lookup_insert_eq in Hg. simpl in Hg. congruence.
  - left. split; [done|]. rewrite lookup_alter_ne in Hg by done.
    destruct (d !! gene r); [done|]. by rewrite lookup_insert_ne in Hg.
Qed.

Lemma for_each_load_validated lines d d' :
  for_each step lines d = Return d' →
  Forall (λ line, startswith_hash line = true → header_mismatch line = false)
         lines.
Proof.
  revert d. induction lines as [|line lines IH]; intros d; simpl; [done|].
  destruct (step d line) as [d1|] eqn:Hstep; simpl; [|done].
  intros Hrest. constructor; [|by eapply IH].
  intros Hhash. unfold load_step in Hstep. rewrite Hhash in Hstep.
  by destruct (header_mismatch line).
Qed.

Lemma for_each_load_skip lines d :
  for_each step lines d =
  for_each step
    (filter (λ line, ¬ (startswith_hash line = true ∧
                        header_mismatch line = false)) lines) d.
Proof.
  revert d. induction lines as [|line lines IH]; intros d; [done|].
  rewrite filter_cons. destruct (decide _) as [Hkeep|Hskip].
  - simpl. destruct (step d line); simpl; [apply IH|done].
  - apply dec_stable in Hskip as [Hhash Hok]. simpl.
    assert (step d line = Return d) as ->.
    { unfold load_step. by rewrite Hhash, Hok. }
    apply IH.
Qed.

Lemma for_each_load_records lines d d' g recs' :
  for_each step lines d = Return d' → d' !! g = Some recs' →
  ∃ recs, recs' = default [] (d !! g) ++ recs ∧
    Forall (λ r, ∃ line, line ∈ lines ∧ startswith_hash line = false ∧
                         line2dict line = Return r) recs.
Proof.
  revert d. induction lines as [|line lines IH]; intros d; simpl.
  { intros [= <-] ->. exists []. by rewrite app_nil_r. }
  destruct (step d line) as [d1|] eqn:Hstep; simpl; [|done].
  intros Hrest Hg. destruct (IH d1 Hrest Hg) as (recs & -> & Hrecs).
  assert (Forall (λ r, ∃ line0, line0 ∈ line :: lines ∧
                    startswith_hash line0 = false ∧
                    line2dict line0 = Return r) recs) as Hrecs'.
  { eapply Forall_impl; [done|]. intros r (line0 & ? & ? & ?).
    exists line0. split; [by right|done]. }
  destruct (d1 !! g) as [recs1|] eqn:Hd1; simpl.
  - destruct (load_step_records _ _ _ _ _ Hstep Hd1)
      as [(_ & _ & ->)|(Hhash & r & Hr & [[_ Hd]|[-> ->]])].
    + exists recs. by rewrite Hd1.
    + exists recs. by rewrite Hd.
    + exists (r :: recs). split; [by rewrite <-app_assoc|].
      constructor; [|done]. exists line. split; [left|done].
  - exists recs. split; [|done]. f_equal.
    unfold load_step in Hstep. destruct (startswith_hash line).
    + destruct (header_mismatch line); [done|]. simplify_eq. by rewrite Hd1.
    + destruct (line2dict line) as [r|]; simpl in Hstep; [|done].
      simplify_eq. destruct (decide (g = gene r)) as [->|Hne].
      * rewrite lookup_alter_eq in Hd1.
        destruct (d !! gene r) as [recs0|] eqn:Hd; [by rewrite Hd in Hd1|].
        by rewrite lookup_insert_eq in Hd1.
      * rewrite lookup_alter_ne in Hd1 by done.
        destruct (d !! gene r); [by rewrite Hd1|].
        rewrite lookup_insert_ne in Hd1 by done. by rewrite Hd1.
Qed.

(** C10: every line that starts with ['#'] is tested against [columns]:
    a report loads only if each such line, without its first character and
    its trailing white space and split at tabs, equals [columns]; a line
    that fails the test, after lines that loaded, raises the [Error] that
    quotes it; a line that passes is skipped, so loading gives the same
    result without it, and every record of the result comes from
    [_line2dict] on a line that does not start with ['#']. *)
Theorem load_lines_hash_lines (lines : list string) :
  length columns = 21%nat ∧
  (∀ d, load lines = Return d →
     Forall (λ line, startswith_hash line = true →
               split_tab (slice_from_1 (rstrip line)) = columns) lines) ∧
  (∀ before line after d,
     lines = before ++ line :: after → load before = Return d →
     startswith_hash line = true →
     split_tab (slice_from_1 (rstrip line)) ≠ columns →
     load lines =
       Raise (Error ("Error parsing the following line." +:+ newline +:+ line))) ∧
  load lines =
    load (filter (λ line, ¬ (startswith_hash line = true ∧
                             header_mismatch line = false)) lines) ∧
  (∀ d g recs, load lines = Return d → d !! g = Some recs →
     Forall (λ r, ∃ line, line ∈ lines ∧ startswith_hash line = false ∧
                          line2dict line = Return r) recs).
Proof.
  unfold load_lines. split_and!.
  - done.
  - intros d Hload. eapply Forall_impl; [by eapply for_each_load_validated|].
    intros line Hline Hhash. specialize (Hline Hhash).
    unfold header_mismatch in Hline. apply bool_decide_eq_false in Hline.
    by apply dec_stable in Hline.
  - intros before line after d -> Hbefore Hhash Hbad.
    rewrite for_each_app, Hbefore. simpl.
    assert (step d line = Raise (Error ("Error parsing the following line."
                                        +:+ newline +:+ line))) as ->; [|done].
    unfold load_step. rewrite Hhash. unfold header_mismatch.
    by rewrite bool_decide_eq_true_2.
  - apply for_each_load_skip.
  - intros d g recs Hload Hg.
    destruct (for_each_load_records _ _ _ _ _ Hload Hg) as (recs0 & -> & Hrecs).
    by rewrite lookup_empty.
Qed.
End reading_theorems.

(** ** The filter: [_filter_output_rows] *)

(** C3: the matrix of no sample and no gene is the header row [filename]
    alone; the filter drops that row with the all-zero rows and then raises
    [IndexError] at [rows_out[0]], where the spec's basis returns the header
    row. *)
Theorem filter_output_rows_no_gene :
  _filter_output_rows (summary_of_rows (summary_matrix [] [])) = Raise IndexError ∧
  independent_filter (summary_matrix [] []) = [[Str "filename"]].
Proof. split; reflexivity. Qed.

(** C4: one pass over a matrix whose only sample is all zero leaves the
    header row [filename]; a second pass over that result raises
    [IndexError] and does not return it. *)
Theorem filter_output_rows_twice :
  rows_out <$> _filter_output_rows
                 (summary_of_rows (summary_matrix ["g1"] [("a", [0])]))
    = Return [[Str "filename"]] ∧
  (once ← _filter_output_rows
            (summary_of_rows (summary_matrix ["g1"] [("a", [0])]));
   _filter_output_rows once) = Raise IndexError.
Proof. split; reflexivity. Qed.

(** *** The filter on a matrix with at least one gene *)

Lemma length_tail_cells (x : list cell) : length (tail x) = (length x - 1)%nat.
Proof. destruct x; simpl; lia. Qed.

Lemma not_all_zeros_iff (x : list cell) :
  not_all_zeros x = true ↔ ¬ all_zero_row x.
Proof.
  unfold not_all_zeros, all_zero_row. rewrite bool_decide_eq_true.
  assert (tail x = replicate (length x - 1) (Num 0)
          ↔ Forall (λ c, c = Num 0) (tail x)) as ->; [|done].
  split.
  - intros Heq. symmetry in Heq. apply replicate_as_Forall in Heq as [_ Hall].
    eapply Forall_impl; [done|]. by intros c ->.
  - intros Hall. symmetry. apply replicate_as_Forall_2.
    + apply length_tail_cells.
    + eapply Forall_impl; [done|]. by intros c ->.
Qed.

(** [sum] over numbers that are not negative is 0 only if all are 0. *)
Lemma py_sum_nonneg (cells : list cell) :
  Forall (λ c, ∃ z, c = Num z ∧ 0 ≤ z) cells →
  ∃ total, py_sum cells = Return total ∧
           (total = 0 ↔ Forall (λ c, c = Num 0) cells).
Proof.
  unfold py_sum. intros Hcells.
  cut (∀ acc, ∃ t, for_each (λ acc c, match c with
                                      | Num z => Return (acc + z)
                                      | Str _ => Raise TypeError
                                      end) cells acc = Return (acc + t) ∧
                   0 ≤ t ∧ (t = 0 ↔ Forall (λ c, c = Num 0) cells)).
  { intros Hgen. destruct (Hgen 0) as (t & Hrun & _ & Hzero). by exists t. }
  induction Hcells as [|c cells (z & -> & Hz) _ IH]; intros acc; simpl.
  { exists 0. rewrite Z.add_0_r. by split_and!. }
  destruct (IH (acc + z)) as (t & -> & Ht & Hzero).
  exists (z + t). split; [f_equal; lia|]. split; [lia|]. split.
  - intros Hsum. constructor; [f_equal; lia|]. apply Hzero. lia.
  - inv 1 as [|?? Hc Hrest]. apply Hzero in Hrest. simplify_eq. lia.
Qed.

(** A loop that appends the elements which pass a test is a filter. *)
Lemma for_each_filter {A} (P : A → Prop) `{!∀ x, Decision (P x)}
    (body : list A → A → result (list A)) l acc :
  (∀ acc x, x ∈ l →
     body acc x = Return (if decide (P x) then acc ++ [x] else acc)) →
  for_each body l acc = Return (acc ++ filter P l).
Proof.
  revert acc. induction l as [|x l IH]; intros acc Hbody; simpl.
  { by rewrite app_nil_r. }
  rewrite Hbody by left. simpl. rewrite IH by (intros; apply Hbody; by right).
  rewrite filter_cons. destruct (decide (P x)); [|done].
  by rewrite <-app_assoc.
Qed.

Lemma column_Return (i : nat) (rows : list (list cell)) :
  Forall (λ row, (i < length row)%nat) rows →
  column i rows = Return ((λ row, row !!! i) <$> rows).
Proof.
  intros Hlen. unfold column. rewrite for_each_append.
  rewrite (comprehension_fmap _ (λ row, row !!! i)); [done|].
  intros row Hrow. rewrite Forall_forall in Hlen.
  apply index_Some, list_lookup_lookup_total_lt. by apply Hlen.
Qed.

Lemma sample_row_lookup n row (i : nat) :
  sample_row n row → (1 ≤ i < n)%nat →
  ∃ z, row !! i = Some (Num z) ∧ 0 ≤ z.
Proof.
  intros [Hlen Hcells] Hi. destruct row as [|c row]; simpl in *; [lia|].
  destruct i as [|i]; [lia|]. simpl.
  destruct (row !! i) as [c'|] eqn:Hc'.
  - rewrite Forall_forall in Hcells.
    destruct (Hcells c') as (z & -> & Hz); [by eapply list_elem_of_lookup_2|].
    by exists z.
  - apply lookup_ge_None in Hc'. lia.
Qed.

Lemma all_zero_row_lookup row (i : nat) :
  all_zero_row row → (1 ≤ i < length row)%nat → row !! i = Some (Num 0).
Proof.
  unfold all_zero_row. destruct row as [|c row]; simpl; [lia|].
  intros Hall Hi. destruct i as [|i]; [lia|]. simpl.
  destruct (row !! i) as [c'|] eqn:Hc'.
  - rewrite Forall_forall in Hall. f_equal. apply Hall.
    by eapply list_elem_of_lookup_2.
  - apply lookup_ge_None in Hc'. lia.
Qed.

(** Dropping the all-zero rows does not change which columns are all zero. *)
Lemma all_zero_column_kept n samples (i : nat) :
  Forall (sample_row n) samples → (1 ≤ i < n)%nat →
  all_zero_column (filter (λ row, ¬ all_zero_row row) samples) i ↔
  all_zero_column samples i.
Proof.
  intros Hrows Hi. unfold all_zero_column. rewrite !Forall_forall. split.
  - intros Hkept row Hrow. destruct (decide (all_zero_row row)) as [Hzero|Hnz].
    + apply all_zero_row_lookup; [done|].
      rewrite Forall_forall in Hrows. destruct (Hrows row Hrow) as [-> _]. lia.
    + apply Hkept. by apply list_elem_of_filter.
  - intros Hall row [_ Hrow]%list_elem_of_filter. by apply Hall.
Qed.

(** One round of the loop over the columns, on a matrix of sample rows. *)
Lemma to_remove_step_sample_rows header samples to_remove (i : nat) :
  Forall (sample_row (length header)) samples →
  (1 ≤ i < length header)%nat →
  to_remove_step (header :: filter (λ row, ¬ all_zero_row row) samples)
                 to_remove i =
  Return (if decide (all_zero_column samples i) then to_remove ++ [i]
          else to_remove).
Proof.
  intros Hrows Hi. unfold to_remove_step. simpl tail.
  set (kept := filter (λ row, ¬ all_zero_row row) samples).
  assert (Forall (sample_row (length header)) kept) as Hkept.
  { apply Forall_forall. intros row [_ Hrow]%list_elem_of_filter.
    rewrite Forall_forall in Hrows. by apply Hrows. }
  rewrite column_Return.
  2:{ eapply Forall_impl; [exact Hkept|]. intros row [-> _]. lia. }
  cbn [mbind result_bind].
  destruct (py_sum_nonneg ((λ row, row !!! i) <$> kept)) as (total & -> & Hzero).
  { apply Forall_fmap. eapply Forall_impl; [exact Hkept|].
    intros row Hrow. simpl.
    destruct (sample_row_lookup _ _ i Hrow Hi) as (z & Hz & Hnonneg).
    exists z. split; [|done]. by apply list_lookup_total_correct. }
  cbn [mbind result_bind].
  assert (total = 0 ↔ all_zero_column samples i) as Hiff.
  { rewrite Hzero, <-(all_zero_column_kept (length header)) by done.
    unfold all_zero_column. fold kept. rewrite Forall_fmap, !Forall_forall.
    split; intros Hall row Hrow; specialize (Hall row Hrow); simpl in *.
    - apply list_lookup_alt. split; [|done].
      rewrite Forall_forall in Hkept. destruct (Hkept row Hrow) as [-> _]. lia.
    - by apply list_lookup_total_correct. }
  destruct (decide (all_zero_column samples i)) as [Hall|Hnot].
  - apply Hiff in Hall as ->. done.
  - destruct (Z.eqb_spec total 0) as [Heq|Hne]; [|done].
    by apply Hiff in Heq.
Qed.

(** On rows whose header is not all zero and whose samples are sample rows,
    the filter returns what the spec's basis gives. *)
Lemma filter_output_rows_sample_rows (self : Summary) header samples :
  filter_output self = true →
  rows_out self = header :: samples →
  ¬ all_zero_row header →
  Forall (sample_row (length header)) samples →
  _filter_output_rows self =
  Return (set_rows_out self (independent_filter (header :: samples))).
Proof.
  intros Hon Hrows Hheader Hsamples. unfold _filter_output_rows.
  rewrite Hon, Hrows. cbn [negb]. cbv zeta.
  rewrite filter_cons, decide_True by by apply not_all_zeros_iff.
  rewrite (list_filter_iff _ (λ row, ¬ all_zero_row row))
    by apply not_all_zeros_iff.
  rewrite (index_Some _ 0 header) by done. cbn [mbind result_bind].
  rewrite (for_each_filter (all_zero_column samples)).
  { done. }
  intros acc i [Hi1 Hi2]%elem_of_seq.
  apply to_remove_step_sample_rows; [done|lia].
Qed.

Lemma summary_matrix_sample_rows genes body :
  well_formed genes body →
  Forall (sample_row (S (length genes)))
         ((λ p, Str p.1 :: (Num <$> p.2)) <$> body).
Proof.
  intros Hwf. apply Forall_fmap. eapply Forall_impl; [exact Hwf|].
  intros [name zs] [Hlen Hnonneg]. simpl in *. split.
  - simpl. by rewrite length_fmap, Hlen.
  - simpl. apply Forall_fmap. eapply Forall_impl; [exact Hnonneg|].
    intros z Hz. by exists z.
Qed.

Lemma summary_matrix_header_not_all_zero (genes : list string) :
  genes ≠ [] → ¬ all_zero_row (Str "filename" :: (Str <$> genes)).
Proof.
  intros Hgenes. unfold all_zero_row. destruct genes as [|g genes]; [done|].
  simpl. by inv 1.
Qed.

(** X1: the refinement on every matrix that has a gene: on every summary
    matrix with at least one gene column, dropping the all-zero rows first and
    then the columns that are all zero in the remaining rows gives what the
    spec's basis gives, where rows and columns are both judged on the
    unfiltered matrix. *)
Theorem filter_output_rows_independent (self : Summary) genes body :
  filter_output self = true →
  rows_out self = summary_matrix genes body →
  genes ≠ [] →
  well_formed genes body →
  _filter_output_rows self =
  Return (set_rows_out self (independent_filter (summary_matrix genes body))).
Proof.
  intros Hon Hrows Hgenes Hwf. unfold summary_matrix in *.
  apply filter_output_rows_sample_rows; [done|done| |].
  - by apply summary_matrix_header_not_all_zero.
  - simpl. rewrite length_fmap. by apply summary_matrix_sample_rows.
Qed.

Lemma filter_output_rows_independent_witness :
  rows_out <$> _filter_output_rows (summary_of_rows three_samples) =
  Return [ [Str "filename"; Str "g1"; Str "g3"];
           [Str "a"; Num 4; Num 0];
           [Str "c"; Num 1; Num 2] ].
Proof.
  rewrite (filter_output_rows_independent (summary_of_rows three_samples)
             ["g1"; "g2"; "g3"]
             [("a", [4; 0; 0]); ("b", [0; 0; 0]); ("c", [1; 0; 2])]).
  - reflexivity.
  - reflexivity.
  - reflexivity.
  - done.
  - repeat constructor; done.
Defined.

(** *** A second pass of the filter *)

Lemma filter_none {A} (P : A → Prop) `{!∀ x, Decision (P x)} (l : list A) :
  (∀ x, x ∈ l → ¬ P x) → filter P l = [].
Proof.
  induction l as [|x l IH]; intros Hnone; [done|].
  rewrite filter_cons, decide_False by (apply Hnone; left).
  apply IH. intros y Hy. apply Hnone. by right.
Qed.

Lemma filter_all {A} (P : A → Prop) `{!∀ x, Decision (P x)} (l : list A) :
  (∀ x, x ∈ l → P x) → filter P l = l.
Proof.
  induction l as [|x l IH]; intros Hall; [done|].
  rewrite filter_cons, decide_True by (apply Hall; left).
  f_equal. apply IH. intros y Hy. apply Hall. by right.
Qed.

Lemma fmap_lookup_total_seq (row : list cell) :
  (λ j, row !!! j) <$> seq 0 (length row) = row.
Proof.
  apply list_eq. intros i. rewrite list_lookup_fmap.
  destruct (decide (i < length row)%nat) as [Hlt|Hge].
  - rewrite lookup_seq_lt by done. simpl.
    by rewrite list_lookup_lookup_total_lt.
  - rewrite lookup_seq_ge by lia. simpl. symmetry. apply lookup_ge_None. lia.
Qed.

Lemma without_columns_nil (row : list cell) : without_columns [] row = row.
Proof.
  unfold without_columns, range. rewrite Nat.sub_0_r.
  rewrite filter_all by (intros j _; apply not_elem_of_nil).
  apply fmap_lookup_total_seq.
Qed.

Section filter_twice.
Variable header : list cell.
Variable samples : list (list cell).
Hypothesis Hsamples : Forall (sample_row (length header)) samples.
Hypothesis Hheader : ∀ (j : nat) c, (1 ≤ j)%nat → header !! j = Some c → c ≠ Num 0.
Hypothesis Hn : (1 ≤ length header)%nat.

(** The columns that the first pass removes, the rows it keeps, and the
    gene columns it keeps. *)
Let zero_columns : list nat :=
  filter (all_zero_column samples) (range 1 (length header)).
Let kept : list (list cell) := filter (λ row, ¬ all_zero_row row) samples.
Let kept_columns : list nat :=
  filter (λ j, j ∉ zero_columns) (seq 1 (length header - 1)).

Lemma elem_of_kept_columns (j : nat) :
  j ∈ kept_columns ↔ (1 ≤ j < length header)%nat ∧ ¬ all_zero_column samples j.
Proof.
  unfold kept_columns, zero_columns, range.
  rewrite list_elem_of_filter, list_elem_of_filter, elem_of_seq. split.
  - intros [Hnot Hj]. split; [lia|]. intros Hzero. apply Hnot. by split.
  - intros [Hj Hnot]. split; [|lia]. by intros [? _].
Qed.

Lemma without_columns_row (row : list cell) :
  length row = length header →
  without_columns zero_columns row =
  row !!! 0%nat :: ((λ j, row !!! j) <$> kept_columns).
Proof.
  intros Hlen. unfold without_columns, range. rewrite Hlen, Nat.sub_0_r.
  destruct (length header) as [|m] eqn:Hm; [lia|].
  cbn [seq]. rewrite filter_cons, decide_True.
  - rewrite fmap_cons. f_equal. unfold kept_columns.
    by rewrite Nat.sub_succ, Nat.sub_0_r.
  - unfold zero_columns, range.
    intros [_ Hin%elem_of_seq]%list_elem_of_filter. lia.
Qed.

Lemma kept_length row : row ∈ kept → length row = length header.
Proof.
  intros [_ Hrow]%list_elem_of_filter. pose proof Hsamples as Hsample.
  rewrite Forall_forall in Hsample. by destruct (Hsample row Hrow).
Qed.

(** A row with a cell that is not 0 keeps such a cell. *)
Lemma kept_row_not_all_zero row :
  row ∈ kept → ¬ all_zero_row (without_columns zero_columns row).
Proof.
  intros Hrow. pose proof (kept_length row Hrow) as Hlen.
  apply list_elem_of_filter in Hrow as [Hnz Hrow].
  rewrite without_columns_row by done. unfold all_zero_row in *. simpl.
  apply not_Forall_Exists in Hnz; [|apply _].
  apply Exists_exists in Hnz as (c & Hc & Hne). simpl in Hne.
  apply list_elem_of_lookup in Hc as [k Hk].
  assert (row !! S k = Some c) as Hj by by destruct row.
  assert (S k ∈ kept_columns) as Hkept.
  { apply elem_of_kept_columns. split.
    - apply lookup_lt_Some in Hj. lia.
    - unfold all_zero_column. rewrite Forall_forall. intros Hall.
      specialize (Hall row Hrow). rewrite Hj in Hall. by simplify_eq. }
  intros Hall. rewrite Forall_fmap, Forall_forall in Hall.
  specialize (Hall (S k) Hkept). simpl in Hall.
  rewrite (list_lookup_total_correct _ _ _ Hj) in Hall. done.
Qed.

(** A column that is kept is not all zero in the rows that are kept. *)
Lemma kept_column_not_all_zero (j' : nat) :
  (1 ≤ j' < S (length kept_columns))%nat →
  ¬ all_zero_column (without_columns zero_columns <$> kept) j'.
Proof.
  intros Hj'. destruct j' as [|k]; [lia|].
  destruct (kept_columns !! k) as [j|] eqn:Hk; [|apply lookup_ge_None in Hk; lia].
  assert (j ∈ kept_columns) as Hj by by eapply list_elem_of_lookup_2.
  apply elem_of_kept_columns in Hj as [Hrange Hnz].
  unfold all_zero_column in Hnz. apply not_Forall_Exists in Hnz; [|apply _].
  apply Exists_exists in Hnz as (row & Hrow & Hcell). simpl in Hcell.
  assert (length row = length header) as Hlen.
  { pose proof Hsamples as Hsample. rewrite Forall_forall in Hsample.
    by destruct (Hsample row Hrow). }
  assert (row ∈ kept) as Hkept.
  { apply list_elem_of_filter. split; [|done]. intros Hzero.
    apply Hcell, all_zero_row_lookup; [done|lia]. }
  unfold all_zero_column. rewrite Forall_fmap, Forall_forall. intros Hall.
  specialize (Hall row Hkept). simpl in Hall.
  rewrite without_columns_row in Hall by done. simpl in Hall.
  rewrite list_lookup_fmap, Hk in Hall. simpl in Hall.
  apply Hcell. rewrite list_lookup_lookup_total_lt by lia. done.
Qed.

(** What the first pass returns is a fixed point of the spec's filter, and
    has the shape that the second pass needs. *)
Lemma independent_filter_twice :
  (2 ≤ length (without_columns zero_columns header))%nat →
  independent_filter (independent_filter (header :: samples))
    = independent_filter (header :: samples) ∧
  ¬ all_zero_row (without_columns zero_columns header) ∧
  Forall (sample_row (length (without_columns zero_columns header)))
         (without_columns zero_columns <$> kept).
Proof.
  intros Hgene. rewrite without_columns_row in Hgene by done.
  simpl in Hgene. rewrite length_fmap in Hgene.
  assert (length (without_columns zero_columns header)
          = S (length kept_columns)) as Hlen'.
  { rewrite without_columns_row by done. simpl. by rewrite length_fmap. }
  split_and!.
  - assert (independent_filter (header :: samples)
            = without_columns zero_columns header
                :: (without_columns zero_columns <$> kept)) as -> by done.
    unfold independent_filter. cbv zeta.
    rewrite Hlen'. rewrite filter_none.
    2:{ intros j' Hj'. unfold range in Hj'. apply elem_of_seq in Hj'.
        apply kept_column_not_all_zero. lia. }
    rewrite filter_all.
    2:{ intros row' (row & -> & Hrow)%list_elem_of_fmap.
        by apply kept_row_not_all_zero. }
    rewrite <-fmap_cons.
    rewrite (list_fmap_ext _ id) by (intros; apply without_columns_nil).
    by rewrite list_fmap_id.
  - rewrite without_columns_row by done. unfold all_zero_row. simpl.
    destruct kept_columns as [|j js] eqn:Hkc; [simpl in Hgene; lia|].
    assert (j ∈ kept_columns) as Hj by (rewrite Hkc; left).
    apply elem_of_kept_columns in Hj as [Hrange _].
    rewrite fmap_cons. inv 1 as [|?? Hzero _].
    eapply (Hheader j); [lia| |exact Hzero].
    apply list_lookup_lookup_total_lt. lia.
  - rewrite Hlen'. apply Forall_fmap, Forall_forall. intros row Hrow.
    pose proof (kept_length row Hrow) as Hlen.
    apply list_elem_of_filter in Hrow as [_ Hrow].
    pose proof Hsamples as Hsample. rewrite Forall_forall in Hsample.
    specialize (Hsample row Hrow).
    simpl. rewrite without_columns_row by done. split.
    + simpl. by rewrite length_fmap.
    + simpl. apply Forall_fmap, Forall_forall. intros j Hj. simpl.
      apply elem_of_kept_columns in Hj as [Hrange _].
      destruct (sample_row_lookup _ _ j Hsample Hrange) as (z & Hz & Hnonneg).
      exists z. split; [|done]. by apply list_lookup_total_correct.
Qed.
End filter_twice.

(** With no gene column every row, the header row included, counts as all
    zero, and the filter raises [IndexError] at [rows_out[0]]. *)
Lemma filter_output_rows_no_gene_raises (self : Summary) body :
  filter_output self = true →
  rows_out self = summary_matrix [] body →
  well_formed [] body →
  _filter_output_rows self = Raise IndexError.
Proof.
  intros Hon Hrows Hwf. unfold _filter_output_rows. rewrite Hon, Hrows.
  cbn [negb]. cbv zeta. rewrite filter_none; [done|].
  intros row Hrow. unfold summary_matrix in Hrow.
  apply elem_of_cons in Hrow as [->|Hrow]; [by compute|].
  apply list_elem_of_fmap in Hrow as ([name zs] & -> & Hin).
  unfold well_formed in Hwf. rewrite Forall_forall in Hwf.
  destruct (Hwf _ Hin) as [Hlen _].
  simpl in *. destruct zs; [by compute|done].
Qed.

Lemma set_rows_out_rows_out (self : Summary) :
  set_rows_out self (rows_out self) = self.
Proof. by destruct self. Qed.

(** X2: idempotence on every result that has a gene: when the first
    pass over a summary matrix returns a matrix that still has a gene column,
    a second pass returns that same matrix. *)
Theorem filter_output_rows_idempotent (self self' : Summary) genes body :
  filter_output self = true →
  rows_out self = summary_matrix genes body →
  well_formed genes body →
  _filter_output_rows self = Return self' →
  (∃ header', rows_out self' !! 0%nat = Some header' ∧
              (2 ≤ length header')%nat) →
  _filter_output_rows self' = Return self'.
Proof.
  intros Hon Hrows Hwf Hfirst (header' & Hheader' & Hgene).
  destruct (decide (genes = [])) as [->|Hgenes].
  { by rewrite (filter_output_rows_no_gene_raises self body) in Hfirst. }
  set (header := Str "filename" :: (Str <$> genes)).
  set (samples := (λ p : string * list Z, Str p.1 :: (Num <$> p.2)) <$> body).
  assert (Forall (sample_row (length header)) samples) as Hsamples.
  { unfold header. simpl. rewrite length_fmap.
    by apply summary_matrix_sample_rows. }
  rewrite (filter_output_rows_sample_rows self header samples) in Hfirst;
    [|done|done|by apply summary_matrix_header_not_all_zero|done].
  set (once := set_rows_out self (independent_filter (header :: samples))) in *.
  assert (self' = once) as -> by congruence. clear Hfirst.
  assert (∀ (j : nat) c, (1 ≤ j)%nat → header !! j = Some c → c ≠ Num 0)
    as Hcells.
  { intros [|j] c Hj; [lia|]. unfold header. simpl.
    rewrite list_lookup_fmap. by destruct (genes !! j); intros [= <-]. }
  assert (1 ≤ length header)%nat as Hn by (unfold header; simpl; lia).
  change (rows_out once !! 0%nat)
    with (Some (without_columns
                  (filter (all_zero_column samples) (range 1 (length header)))
                  header)) in Hheader'.
  injection Hheader' as <-.
  destruct (independent_filter_twice header samples Hsamples Hcells Hn Hgene)
    as (Hfix & Hnz & Hrows').
  rewrite (filter_output_rows_sample_rows once _ _ Hon eq_refl Hnz Hrows').
  f_equal. rewrite <-(set_rows_out_rows_out once) at 2. f_equal. exact Hfix.
Qed.

Lemma filter_output_rows_idempotent_witness :
  (once ← _filter_output_rows (summary_of_rows three_samples);
   twice ← _filter_output_rows once;
   Return (rows_out twice)) =
  Return [ [Str "filename"; Str "g1"; Str "g3"];
           [Str "a"; Num 4; Num 0];
           [Str "c"; Num 1; Num 2] ].
Proof.
  destruct (_filter_output_rows (summary_of_rows three_samples))
    as [once|] eqn:Honce; [|done].
  cbn [mbind result_bind].
  rewrite (filter_output_rows_idempotent (summary_of_rows three_samples) once
             ["g1"; "g2"; "g3"]
             [("a", [4; 0; 0]); ("b", [0; 0; 0]); ("c", [1; 0; 2])]).
  - by injection Honce as <-.
  - reflexivity.
  - reflexivity.
  - repeat constructor; done.
  - exact Honce.
  - injection Honce as <-. eexists. split; [reflexivity|]. simpl. lia.
Defined.

(** ** The matrix that [_gather_output_rows] builds *)

Lemma to_summary_number_range min_id l n :
  _to_summary_number min_id l = Return n → 0 ≤ n ≤ 4.
Proof.
  unfold _to_summary_number. destruct l as [|first rest]; [done|]. cbv zeta.
  match goal with |- (?m ≫= _) = _ → _ => destruct m as [low|] end;
    simpl; [|done].
  destruct low; repeat case_match; intros [= <-]; lia.
Qed.

Lemma rows_step_Return min_id d genes rows filename rows' :
  rows_step min_id d genes rows filename = Return rows' ↔
  ∃ cells, rows' = rows ++ [Str filename :: cells] ∧
           Forall2 (cell_of min_id d filename) genes cells.
Proof.
  unfold rows_step.
  rewrite (for_each_ext _ _ _ _
             (λ acc g _, new_row_step_append min_id d filename acc g)).
  destruct (for_each _ genes _) as [row|e] eqn:Hrow; simpl.
  - apply for_each_append_Return in Hrow as (cells & -> & Hcells).
    rewrite (Forall2_iff _ _ _ _ (new_row_step_Return min_id d filename))
      in Hcells.
    split.
    + intros [= <-]. by exists cells.
    + intros (cells' & -> & Hcells'). simpl. do 4 f_equal.
      eapply Forall2_unique; [done..|].
      intros g c c' (report & Hf & Hc1) (report' & Hf' & Hc2).
      rewrite Hf in Hf'. injection Hf' as <-.
      destruct (report !! g); [|congruence].
      destruct Hc1 as (n & Hn & ->), Hc2 as (n' & Hn' & ->). congruence.
  - split; [done|]. intros (cells & _ & Hcells). exfalso.
    rewrite <-(Forall2_iff _ _ _ _ (new_row_step_Return min_id d filename))
      in Hcells.
    assert (for_each
              (λ acc g,
                 c ← match d !! filename with
                     | None => Raise (KeyError filename)
                     | Some report =>
                       match report !! g with
                       | None => Return (Num 0)
                       | Some l => n ← _to_summary_number min_id l; Return (Num n)
                       end
                     end; Return (acc ++ [c])) genes [Str filename]
            = Return ([Str filename] ++ cells)) as Hok; [|congruence].
    apply for_each_append_Return. by exists cells.
Qed.

(** The cells of a row are summary numbers. *)
Lemma cell_of_numbers min_id d filename genes cells :
  Forall2 (cell_of min_id d filename) genes cells →
  ∃ zs, cells = Num <$> zs ∧ length zs = length genes ∧
        Forall (λ z, 0 ≤ z ≤ 4) zs.
Proof.
  induction 1 as [|g c genes cells (report & _ & Hc) _ (zs & -> & Hlen & Hzs)].
  { by exists []. }
  destruct (report !! g) as [l|].
  - destruct Hc as (n & Hn%to_summary_number_range & ->).
    exists (n :: zs). split_and!; [done|simpl; lia|by constructor].
  - subst c. exists (0 :: zs). split_and!; [done|simpl; lia|].
    constructor; [lia|done].
Qed.

Lemma gather_loop_summary_matrix min_id d genes filenames' rows0 rows :
  for_each (rows_step min_id d genes) filenames' rows0 = Return rows →
  ∃ body, rows = rows0 ++ ((λ p, Str p.1 :: (Num <$> p.2)) <$> body) ∧
          body.*1 = filenames' ∧
          Forall (λ p, length p.2 = length genes ∧
                       Forall (λ z, 0 ≤ z ≤ 4) p.2) body.
Proof.
  revert rows0. induction filenames' as [|f fs IH]; intros rows0; simpl.
  { intros [= <-]. exists []. by rewrite app_nil_r. }
  destruct (rows_step min_id d genes rows0 f) as [rows1|] eqn:Hstep;
    simpl; [|done].
  apply rows_step_Return in Hstep as (cells & -> & Hcells).
  apply cell_of_numbers in Hcells as (zs & -> & Hlen & Hzs).
  intros (body & -> & Hnames & Hbody)%IH.
  exists ((f, zs) :: body). split_and!.
  - by rewrite <-app_assoc.
  - simpl. by f_equal.
  - by constructor.
Qed.

Lemma gather_rows_of_data_body (self self' : Summary) :
  gather_rows_of_data self = Return self' →
  ∃ body,
    self' = set_rows_out self (summary_matrix (all_genes_of (data self)) body) ∧
    body.*1 = filenames self ∧
    Forall (λ p, length p.2 = length (all_genes_of (data self)) ∧
                 Forall (λ z, 0 ≤ z ≤ 4) p.2) body.
Proof.
  unfold gather_rows_of_data. cbv zeta.
  destruct (for_each _ (filenames self) _) as [rows|] eqn:Hrows; simpl; [|done].
  apply gather_loop_summary_matrix in Hrows as (body & -> & Hnames & Hbody).
  intros [= <-]. by exists body.
Qed.

(** X3: whenever the rows are built, they form a summary matrix: the header
    [filename] and the sorted gene names, then one row per file name in the
    order of [filenames], each with one summary number between 0 and 4 per
    gene; the other attributes of the object are unchanged. *)
Theorem gather_rows_of_data_summary_matrix (self self' : Summary) :
  gather_rows_of_data self = Return self' →
  ∃ body,
    self' = set_rows_out self (summary_matrix (all_genes_of (data self)) body) ∧
    body.*1 = filenames self ∧
    Forall (λ p, length p.2 = length (all_genes_of (data self)) ∧
                 Forall (λ z, 0 ≤ z ≤ 4) p.2) body ∧
    rectangular (rows_out self').
Proof.
  intros (body & -> & Hnames & Hbody)%gather_rows_of_data_body.
  exists body. split_and!; [done..|].
  simpl. apply Forall_fmap, Forall_forall. intros [f zs] Hin.
  rewrite Forall_forall in Hbody. destruct (Hbody _ Hin) as [Hlen _].
  simpl in *. by rewrite !length_fmap, Hlen.
Qed.

Lemma gather_rows_of_data_summary_matrix_witness :
  ∃ body,
    set_rows_out one_report
      [ [Str "filename"; Str "g"]; [Str "s1"; Num 4]; [Str "s2"; Num 0] ] =
    set_rows_out one_report
      (summary_matrix (all_genes_of (data one_report)) body) ∧
    body.*1 = filenames one_report ∧
    Forall (λ p, length p.2 = length (all_genes_of (data one_report)) ∧
                 Forall (λ z, 0 ≤ z ≤ 4) p.2) body ∧
    rectangular
      [ [Str "filename"; Str "g"]; [Str "s1"; Num 4]; [Str "s2"; Num 0] ].
Proof.
  apply (gather_rows_of_data_summary_matrix one_report
           (set_rows_out one_report
              [ [Str "filename"; Str "g"]; [Str "s1"; Num 4]; [Str "s2"; Num 0] ])).
  by vm_compute.
Defined.

(** ** Building the matrix, then filtering it *)

Lemma all_genes_of_nil (d : gmap string (gmap string (list record))) :
  all_genes_of d = [] ↔ ∀ f report, d !! f = Some report → report = ∅.
Proof.
  split.
  - intros Hnil f report Hf. apply map_eq. intros g. rewrite lookup_empty.
    destruct (report !! g) as [l|] eqn:Hg; [|done].
    assert (g ∈ all_genes_of d) as Hin.
    { apply elem_of_all_genes_of. exists f, report. by rewrite Hg. }
    rewrite Hnil in Hin. by apply elem_of_nil in Hin.
  - intros Hempty. destruct (all_genes_of d) as [|g genes] eqn:Hgenes; [done|].
    assert (g ∈ all_genes_of d) as Hin by (rewrite Hgenes; left).
    apply elem_of_all_genes_of in Hin as (f & report & Hf & [l Hl]).
    rewrite (Hempty f report Hf) in Hl. by rewrite lookup_empty in Hl.
Qed.

(** X4: with the filter switched on, filtering the matrix that was just
    built raises [IndexError] exactly when no loaded report holds a gene;
    otherwise it returns the matrix of the spec's independent basis. *)
Theorem gather_then_filter (self built : Summary) :
  filter_output self = true →
  gather_rows_of_data self = Return built →
  (_filter_output_rows built = Raise IndexError ↔
     ∀ f report, data self !! f = Some report → report = ∅) ∧
  ((∃ f report, data self !! f = Some report ∧ report ≠ ∅) →
     _filter_output_rows built =
       Return (set_rows_out built (independent_filter (rows_out built)))).
Proof.
  intros Hon Hbuilt.
  destruct (gather_rows_of_data_body self built Hbuilt)
    as (body & -> & _ & Hbody).
  set (genes := all_genes_of (data self)) in *.
  assert (well_formed genes body) as Hwf.
  { eapply Forall_impl; [exact Hbody|]. intros p [Hlen Hzs]. split; [done|].
    eapply Forall_impl; [exact Hzs|]. intros z. simpl. lia. }
  assert (genes ≠ [] →
          _filter_output_rows (set_rows_out self (summary_matrix genes body)) =
          Return (set_rows_out (set_rows_out self (summary_matrix genes body))
                    (independent_filter (summary_matrix genes body)))) as Hsome.
  { intros Hgenes. apply filter_output_rows_sample_rows; [done|done| |].
    - by apply summary_matrix_header_not_all_zero.
    - simpl. rewrite length_fmap. by apply summary_matrix_sample_rows. }
  split.
  - rewrite <-all_genes_of_nil. fold genes. split.
    + intros Hraise. destruct (decide (genes = [])) as [|Hgenes]; [done|].
      rewrite (Hsome Hgenes) in Hraise. done.
    + intros Hnil. rewrite Hnil in *.
      by apply (filter_output_rows_no_gene_raises _ body).
  - intros (f & report & Hf & Hne). apply Hsome. intros Hnil.
    apply Hne. by apply (all_genes_of_nil (data self)) in Hf.
Qed.

Lemma gather_then_filter_witness :
  rows_out <$> (built ← gather_rows_of_data one_report;
                _filter_output_rows built) =
  Return [ [Str "filename"; Str "g"]; [Str "s1"; Num 4] ].
Proof.
  destruct (gather_rows_of_data one_report) as [built|] eqn:Hbuilt; [|done].
  cbn [mbind result_bind].
  destruct (gather_then_filter one_report built eq_refl Hbuilt) as [_ ->].
  - by injection Hbuilt as <-.
  - exists "s1", {[ "g" := [report_line "g" clean_flag (Int 500) (Float 99)] ]}.
    split; [done|]. intros Hempty.
    apply (f_equal (λ m : gmap string (list record), m !! "g")) in Hempty.
    by rewrite lookup_singleton_eq, lookup_empty in Hempty.
Defined.

(** ** What the filter keeps, on any rows *)

Lemma to_remove_loop_elements rows l acc to_remove :
  for_each (to_remove_step rows) l acc = Return to_remove →
  ∀ j, j ∈ to_remove → j ∈ acc ∨ j ∈ l.
Proof.
  revert acc. induction l as [|i l IH]; intros acc; simpl.
  { intros [= <-] j Hj. by left. }
  destruct (to_remove_step rows acc i) as [acc'|] eqn:Hstep; simpl; [|done].
  intros Hrest j Hj. destruct (IH acc' Hrest j Hj) as [Hacc'|Hl].
  - unfold to_remove_step in Hstep.
    destruct (column i (tail rows)) as [col|]; simpl in Hstep; [|done].
    destruct (py_sum col) as [total|]; simpl in Hstep; [|done].
    destruct (total =? 0); injection Hstep as <-; [|by left].
    apply elem_of_app in Hacc' as [?|Hi]; [by left|].
    apply list_elem_of_singleton in Hi as ->. right. left.
  - right. by right.
Qed.

Lemma without_columns_sublist to_remove (row : list cell) :
  without_columns to_remove row `sublist_of` row.
Proof.
  unfold without_columns, range. rewrite Nat.sub_0_r.
  assert (((λ j, row !!! j) <$> filter (λ j, j ∉ to_remove) (seq 0 (length row)))
            `sublist_of` ((λ j, row !!! j) <$> seq 0 (length row))) as Hsub
    by apply fmap_sublist, sublist_filter.
  by rewrite fmap_lookup_total_seq in Hsub.
Qed.

Lemma without_columns_head to_remove (row : list cell) :
  0%nat ∉ to_remove → head (without_columns to_remove row) = head row.
Proof.
  intros Hzero. unfold without_columns, range. rewrite Nat.sub_0_r.
  destruct row as [|c row]; [done|]. cbn [length seq].
  by rewrite filter_cons, decide_True.
Qed.

(** X5: whatever the rows are, a filter that returns has only removed rows
    and columns: switched off it returns the object as it is; switched on
    it returns, in their order, the rows whose cells after the first are
    not all 0, each with its first cell and with its remaining cells a
    subsequence of the cells it had; no attribute other than [rows_out]
    changes. *)
Theorem filter_output_rows_keeps (self self' : Summary) :
  _filter_output_rows self = Return self' →
  (filter_output self = false → self' = self) ∧
  (filter_output self = true →
     Forall2 (λ row' row, head row' = head row ∧ row' `sublist_of` row)
             (rows_out self')
             (filter (λ row, ¬ all_zero_row row) (rows_out self))) ∧
  self' = set_rows_out self (rows_out self').
Proof.
  unfold _filter_output_rows. destruct (filter_output self) eqn:Hon; simpl.
  2:{ intros [= <-]. split_and!; [done|done|by destruct self]. }
  rewrite (list_filter_iff _ (λ row, ¬ all_zero_row row))
    by apply not_all_zeros_iff.
  set (rows := filter (λ row, ¬ all_zero_row row) (rows_out self)).
  destruct (index rows 0) as [header|]; simpl; [|done].
  destruct (for_each _ _ _) as [to_remove|] eqn:Hloop; simpl; [|done].
  intros [= <-]. split_and!; [done| |done].
  intros _. simpl. apply Forall2_fmap_l, Forall_Forall2_diag, Forall_forall.
  intros row _. split; [|apply without_columns_sublist].
  apply without_columns_head. intros Hzero.
  destruct (to_remove_loop_elements _ _ _ _ Hloop 0%nat Hzero)
    as [Hnil|Hrange]; [by apply elem_of_nil in Hnil|].
  unfold range in Hrange. apply elem_of_seq in Hrange. lia.
Qed.

Lemma filter_output_rows_keeps_witness :
  Forall2 (λ row' row, head row' = head row ∧ row' `sublist_of` row)
    [ [Str "filename"; Str "g1"; Str "g3"];
      [Str "a"; Num 4; Num 0];
      [Str "c"; Num 1; Num 2] ]
    (filter (λ row, ¬ all_zero_row row) three_samples).
Proof.
  destruct (filter_output_rows_keeps (summary_of_rows three_samples)
              (set_rows_out (summary_of_rows three_samples)
                 [ [Str "filename"; Str "g1"; Str "g3"];
                   [Str "a"; Num 4; Num 0];
                   [Str "c"; Num 1; Num 2] ]))
    as (_ & Hkeeps & _); [by vm_compute|].
  by apply Hkeeps.
Defined.

(** ** Filtering the matrix, then writing the distance matrix *)

(** X6: after a summary matrix was filtered, its rows still have one
    length, and the distance matrix is written exactly when at least two
    samples had a summary number other than 0; with fewer such samples
    [_write_distance_matrix] raises its [Error], never another exception. *)
Theorem filter_then_distance (self filtered : Summary) genes body :
  filter_output self = true →
  rows_out self = summary_matrix genes body →
  well_formed genes body →
  _filter_output_rows self = Return filtered →
  rectangular (rows_out filtered) ∧
  ((2 ≤ length (filter (λ row, ¬ all_zero_row row) (tail (rows_out self))))%nat →
     ∃ lines, _write_distance_matrix filtered = Return lines) ∧
  ((length (filter (λ row, ¬ all_zero_row row) (tail (rows_out self))) < 2)%nat →
     ∃ msg, _write_distance_matrix filtered = Raise (Error msg)).
Proof.
  intros Hon Hrows Hwf Hfilter.
  destruct (decide (genes = [])) as [->|Hgenes].
  { by rewrite (filter_output_rows_no_gene_raises self body) in Hfilter. }
  set (header := Str "filename" :: (Str <$> genes)).
  set (samples := (λ p : string * list Z, Str p.1 :: (Num <$> p.2)) <$> body).
  assert (Forall (sample_row (length header)) samples) as Hsamples.
  { unfold header. simpl. rewrite length_fmap.
    by apply summary_matrix_sample_rows. }
  assert (1 ≤ length header)%nat as Hn by (unfold header; simpl; lia).
  rewrite (filter_output_rows_sample_rows self header samples) in Hfilter;
    [|done|done|by apply summary_matrix_header_not_all_zero|done].
  injection Hfilter as <-. rewrite Hrows.
  change (tail (summary_matrix genes body)) with samples.
  set (zero_columns := filter (all_zero_column samples) (range 1 (length header))).
  set (kept := filter (λ row, ¬ all_zero_row row) samples).
  change (rows_out (set_rows_out self (independent_filter (header :: samples))))
    with (without_columns zero_columns header
            :: (without_columns zero_columns <$> kept)).
  assert (∀ row, length row = length header →
            length (without_columns zero_columns row)
            = length (without_columns zero_columns header)) as Hlen.
  { intros row Hrow. unfold zero_columns.
    rewrite !(without_columns_row header samples) by done.
    simpl. by rewrite !length_fmap. }
  assert (Forall (λ row, length row = length (without_columns zero_columns header))
                 (without_columns zero_columns <$> kept)) as Hrect.
  { apply Forall_fmap, Forall_forall. intros row Hrow. simpl.
    apply Hlen. by apply (kept_length header samples). }
  split_and!; [done| |].
  - intros Htwo.
    assert (2 ≤ length (without_columns zero_columns header))%nat as Hgene.
    { destruct kept as [|row kept'] eqn:Hkept; [simpl in Htwo; lia|].
      assert (row ∈ filter (λ row, ¬ all_zero_row row) samples) as Hrow.
      { fold kept. rewrite Hkept. left. }
      rewrite <-(Hlen row) by by apply (kept_length header samples).
      pose proof (kept_row_not_all_zero header samples Hsamples Hn row Hrow)
        as Hnz.
      fold zero_columns in Hnz. unfold all_zero_row in Hnz.
      destruct (without_columns zero_columns row) as [|c [|c' cs]];
        simpl in *; [by destruct Hnz|by destruct Hnz|lia]. }
    eexists.
    apply (write_distance_matrix_rectangular _
             (without_columns zero_columns header)
             (without_columns zero_columns <$> kept)); [done| |done|done].
    by rewrite length_fmap.
  - intros Hfew. unfold _write_distance_matrix. cbv zeta.
    rewrite bool_decide_eq_true_2; [by eexists|].
    simpl. rewrite length_fmap. lia.
Qed.

Lemma filter_then_distance_witness :
  ∃ lines,
    (filtered ← _filter_output_rows (summary_of_rows three_samples);
     _write_distance_matrix filtered) = Return lines.
Proof.
  destruct (_filter_output_rows (summary_of_rows three_samples))
    as [filtered|] eqn:Hfiltered; [|done].
  cbn [mbind result_bind].
  destruct (filter_then_distance (summary_of_rows three_samples) filtered
              ["g1"; "g2"; "g3"]
              [("a", [4; 0; 0]); ("b", [0; 0; 0]); ("c", [1; 0; 2])])
    as (_ & Hwrite & _).
  - reflexivity.
  - reflexivity.
  - repeat constructor; done.
  - exact Hfiltered.
  - apply Hwrite. by vm_compute.
Defined.

(** ** Reading a report: the groups of records *)

Section grouping_theorems.
Variable py_int : string → option Z.
Variable py_float : string → option float.
Variable Flag_of_int : Z → result Flag.

Local Abbreviation line2dict := (_line2dict py_int py_float Flag_of_int).
Local Abbreviation step := (load_step py_int py_float Flag_of_int).
Local Abbreviation load := (load_lines py_int py_float Flag_of_int).

Lemma load_step_data_line d line r :
  startswith_hash line = false → line2dict line = Return r →
  ∃ d', step d line = Return d' ∧
    ∀ g, d' !! g = if decide (g = gene r)
                   then Some (default [] (d !! g) ++ [r]) else d !! g.
Proof.
  intros Hhash Hr. unfold load_step. rewrite Hhash, Hr. simpl.
  eexists. split; [done|]. intros g. destruct (decide (g = gene r)) as [->|Hne].
  - rewrite lookup_alter_eq. destruct (d !! gene r) as [l|] eqn:Hd; simpl.
    + by rewrite Hd.
    + by rewrite lookup_insert_eq.
  - rewrite lookup_alter_ne by done.
    destruct (d !! gene r); [done|]. by rewrite lookup_insert_ne.
Qed.

Lemma for_each_load_groups lines d d' :
  for_each step lines d = Return d' →
  ∃ recs,
    comprehension line2dict (filter (λ l, startswith_hash l = false) lines)
      = Return recs ∧
    ∀ g, d' !! g = extended (d !! g) (filter (λ r, gene r = g) recs).
Proof.
  revert d. induction lines as [|line lines IH]; intros d; simpl.
  { intros [= <-]. exists []. split; [done|]. intros g. simpl.
    destruct (d !! g); simpl; [by rewrite app_nil_r|done]. }
  destruct (step d line) as [d1|] eqn:Hstep; simpl; [|done].
  intros (recs & Hrecs & Hgroups)%IH. rewrite filter_cons.
  destruct (startswith_hash line) eqn:Hhash.
  - rewrite decide_False by done. unfold load_step in Hstep.
    rewrite Hhash in Hstep. destruct (header_mismatch line); [done|].
    injection Hstep as <-. by exists recs.
  - rewrite decide_True by done.
    destruct (line2dict line) as [r|] eqn:Hr.
    2:{ unfold load_step in Hstep. by rewrite Hhash, Hr in Hstep. }
    destruct (load_step_data_line d line r Hhash Hr) as (d1' & Hstep' & Hd1).
    rewrite Hstep in Hstep'. injection Hstep' as <-.
    exists (r :: recs). split; [simpl; by rewrite Hr, Hrecs|].
    intros g. rewrite Hgroups, Hd1, filter_cons.
    destruct (decide (g = gene r)) as [->|Hne].
    + rewrite decide_True by done. destruct (d !! gene r); simpl.
      * by rewrite <-app_assoc.
      * done.
    + by rewrite decide_False by done.
Qed.

Lemma for_each_load_total lines d recs :
  Forall (λ l, startswith_hash l = true → header_mismatch l = false) lines →
  comprehension line2dict (filter (λ l, startswith_hash l = false) lines)
    = Return recs →
  ∃ d', for_each step lines d = Return d'.
Proof.
  intros Hvalid. revert d recs.
  induction Hvalid as [|line lines Hline _ IH]; intros d recs; simpl.
  { by eexists. }
  rewrite filter_cons. destruct (startswith_hash line) eqn:Hhash.
  - rewrite decide_False by done. intros Hrecs.
    assert (step d line = Return d) as ->.
    { unfold load_step. by rewrite Hhash, Hline. }
    simpl. by eapply IH.
  - rewrite decide_True by done. simpl.
    destruct (line2dict line) as [r|] eqn:Hr; simpl; [|done].
    destruct (comprehension _ _) as [recs'|] eqn:Hrecs'; simpl; [|done].
    intros _.
    destruct (load_step_data_line d line r Hhash Hr) as (d1 & -> & _).
    simpl. by eapply IH.
Qed.

(** X7: a report loads exactly when each of its ['#'] lines equals the
    header and each other line parses; what is loaded then maps every gene
    of the report to its records, in the order of their lines, and holds no
    other key and no empty list. *)
Theorem load_lines_groups (lines : list string) :
  (∀ d, load lines = Return d →
     ∃ recs,
       comprehension line2dict (filter (λ l, startswith_hash l = false) lines)
         = Return recs ∧
       ∀ g, d !! g = group_of recs g) ∧
  (∀ recs,
     Forall (λ l, startswith_hash l = true → header_mismatch l = false) lines →
     comprehension line2dict (filter (λ l, startswith_hash l = false) lines)
       = Return recs →
     ∃ d, load lines = Return d).
Proof.
  unfold load_lines. split.
  - intros d (recs & Hrecs & Hgroups)%for_each_load_groups.
    exists recs. split; [done|]. intros g.
    by rewrite Hgroups, lookup_empty.
  - intros recs Hvalid Hrecs. by eapply for_each_load_total.
Qed.
End grouping_theorems.

(** ** Parsing a line: [_line2dict] *)

Lemma lookup_zip_keys (ks vs : list string) (i : nat) k :
  NoDup ks → ks !! i = Some k →
  (list_to_map (zip ks vs) : gmap string string) !! k = vs !! i.
Proof.
  intros Hnodup. revert i vs.
  induction Hnodup as [|k0 ks Hk0 _ IH]; intros i vs Hi; [done|].
  destruct vs as [|v vs]; simpl.
  { rewrite lookup_empty. by destruct i. }
  destruct i as [|i]; simpl in *.
  - injection Hi as ->. apply lookup_insert_eq.
  - rewrite lookup_insert_ne; [by apply IH|].
    intros ->. apply Hk0. by eapply list_elem_of_lookup_2.
Qed.

Lemma columns_NoDup : NoDup columns.
Proof. apply (bool_decide_unpack _). by vm_compute. Qed.

Lemma lookup_columns (fields : list string) (i : nat) k :
  columns !! i = Some k →
  (list_to_map (zip columns fields) : gmap string string) !! k = fields !! i.
Proof. apply lookup_zip_keys, columns_NoDup. Qed.

Section line2dict_theorems.
Variable py_int : string → option Z.
Variable py_float : string → option float.
Variable Flag_of_int : Z → result Flag.

Local Abbreviation line2dict := (_line2dict py_int py_float Flag_of_int).

Lemma int_column_Return d key v :
  int_column py_int d key = Return v →
  ∃ a, d !! key = Some a ∧
       v = match py_int a with Some z => Int z | None => IntMissing end ∧
       (py_int a = None → a = ".").
Proof.
  unfold int_column, getitem. destruct (d !! key) as [a|]; simpl; [|done].
  intros Hv. exists a. split; [done|].
  destruct (py_int a); [by injection Hv as <-|].
  destruct (decide (a = ".")); [by injection Hv as <-|done].
Qed.

Lemma float_column_Return d key v :
  float_column py_float d key = Return v →
  ∃ a, d !! key = Some a ∧
       v = match py_float a with Some x => Float x | None => FloatMissing end ∧
       (py_float a = None → a = ".").
Proof.
  unfold float_column, getitem. destruct (d !! key) as [a|]; simpl; [|done].
  intros Hv. exists a. split; [done|].
  destruct (py_float a); [by injection Hv as <-|].
  destruct (decide (a = ".")); [by injection Hv as <-|done].
Qed.

(** X8: a line parses only if, without its trailing white space, it has
    between 19 and 21 tab-separated fields; more than 21 fields raise
    [IndexError].  The record then has the first field as its gene, the
    20th and 21st fields, where present, as [alt_bases] and
    [ref_alt_depth], and for [assembled] and [pc_ident] the number that
    [int] and [float] read from the 6th and 7th fields, or the missing
    value when the field is ['.'], the only text they accept that is not
    a number. *)
Theorem line2dict_fields (line : string) :
  (∀ r, line2dict line = Return r →
     (19 ≤ length (split_tab (rstrip line)) ≤ 21)%nat ∧
     split_tab (rstrip line) !! 0%nat = Some (gene r) ∧
     alt_bases r = split_tab (rstrip line) !! 19%nat ∧
     ref_alt_depth r = split_tab (rstrip line) !! 20%nat ∧
     (∃ a, split_tab (rstrip line) !! 5%nat = Some a ∧
           assembled r = match py_int a with
                         | Some z => Int z
                         | None => IntMissing
                         end ∧
           (py_int a = None → a = ".")) ∧
     (∃ p, split_tab (rstrip line) !! 6%nat = Some p ∧
           pc_ident r = match py_float p with
                        | Some x => Float x
                        | None => FloatMissing
                        end ∧
           (py_float p = None → p = "."))) ∧
  ((21 < length (split_tab (rstrip line)))%nat →
     line2dict line = Raise IndexError).
Proof.
  unfold _line2dict. cbv zeta.
  set (fields := split_tab (rstrip line)).
  set (d := list_to_map (zip columns fields) : gmap string string).
  split.
  2:{ intros Hlong. by rewrite bool_decide_eq_true_2. }
  intros r. case_bool_decide as Hlen; [done|].
  change (length columns) with 21%nat in Hlen.
  intros Hr.
  repeat match type of Hr with
  | (?m ≫= _) = Return _ =>
      let H := fresh "Hbind" in
      destruct m eqn:H; simpl in Hr; [|done]
  end.
  injection Hr as <-. simpl.
  match goal with
  | H : int_column _ _ "read_depth" = Return _ |- _ =>
      apply int_column_Return in H as (depth & Hdepth & _)
  end.
  match goal with
  | H : int_column _ _ "assembled" = Return _ |- _ =>
      apply int_column_Return in H as (asm & Hasm & Hassembled & Hdot)
  end.
  match goal with
  | H : float_column _ _ "pc_ident" = Return _ |- _ =>
      apply float_column_Return in H as (ident & Hp & Hident & Hpdot)
  end.
  unfold d in *.
  rewrite (lookup_columns fields 18) in Hdepth by done.
  rewrite (lookup_columns fields 5) in Hasm by done.
  rewrite (lookup_columns fields 6) in Hp by done.
  apply lookup_lt_Some in Hdepth as Hlong.
  split_and!.
  - lia.
  - lia.
  - rewrite lookup_total_alt, (lookup_columns fields 0) by done.
    destruct (fields !! 0%nat) as [g|] eqn:Hg; [done|].
    apply lookup_ge_None in Hg. lia.
  - by apply (lookup_columns fields 19).
  - by apply (lookup_columns fields 20).
  - by exists asm.
  - by exists ident.
Qed.
End line2dict_theorems.

Lemma line2dict_fields_witness :
  (19 ≤ length (split_tab (rstrip twenty_fields)) ≤ 21)%nat ∧
  split_tab (rstrip twenty_fields) !! 0%nat = Some "g1" ∧
  split_tab (rstrip twenty_fields) !! 20%nat = None.
Proof.
  destruct (_line2dict read_1_27 read_no_float no_flags twenty_fields)
    as [r|] eqn:Hr; [|by vm_compute in Hr].
  destruct (line2dict_fields read_1_27 read_no_float no_flags twenty_fields)
    as [Hfields _].
  destruct (Hfields r Hr) as (Hlen & Hgene & _ & Hdepth & _).
  split; [exact Hlen|split].
  - rewrite Hgene. f_equal. vm_compute in Hr. by injection Hr as <-.
  - rewrite <-Hdepth. vm_compute in Hr. by injection Hr as <-.
Defined.

(** ** Trailing white space *)

Lemma rstrip_all_space w : all_space w = true → rstrip w = "".
Proof.
  induction w as [|c w IH]; simpl; [done|].
  intros [Hc Hw]%andb_true_iff. by rewrite IH, Hc.
Qed.

Lemma rstrip_app_space s w : all_space w = true → rstrip (s +:+ w) = rstrip s.
Proof.
  intros Hw. induction s as [|c s IH]; simpl.
  - by rewrite rstrip_all_space.
  - by rewrite IH.
Qed.

Lemma rstrip_idempotent s : rstrip (rstrip s) = rstrip s.
Proof.
  induction s as [|c s IH]; simpl; [done|].
  destruct (rstrip s) as [|c' r] eqn:Hr.
  - destruct (is_space c) eqn:Hc; simpl; [done|]. by rewrite Hc.
  - change (rstrip (String c (String c' r)))
      with (match rstrip (String c' r) with
            | EmptyString => if is_space c then EmptyString
                             else String c EmptyString
            | r' => String c r'
            end).
    by rewrite IH.
Qed.

Section trailing_space.
Variable py_int : string → option Z.
Variable py_float : string → option float.
Variable Flag_of_int : Z → result Flag.
Variable open_file_read : string → result (list string).

(** X9: white space at the end of a line, tabs included, is not seen:
    a line parses, and a ['#'] line is tested, as the line without it, so
    empty fields at the end of a line are not counted as fields; and the
    file names read from a file of file names carry no such white space. *)
Theorem trailing_space_ignored (line w : string) :
  all_space w = true →
  _line2dict py_int py_float Flag_of_int (line +:+ w)
    = _line2dict py_int py_float Flag_of_int line ∧
  header_mismatch (line +:+ w) = header_mismatch line ∧
  split_tab (rstrip (line +:+ w)) = split_tab (rstrip line) ∧
  (∀ fofn names, _load_fofn open_file_read fofn = Return names →
     Forall (λ name, rstrip name = name) names).
Proof.
  intros Hw. unfold _line2dict, header_mismatch.
  rewrite !(rstrip_app_space line w Hw). split_and!; [done..|].
  intros fofn names. unfold _load_fofn.
  destruct (open_file_read fofn) as [lines|]; simpl; [|done].
  intros [= <-]. apply Forall_fmap, Forall_forall. intros name _. simpl.
  apply rstrip_idempotent.
Qed.
End trailing_space.

Lemma trailing_space_ignored_witness :
  split_tab (rstrip (("g1" +:+ tab +:+ "27") +:+ (tab +:+ tab +:+ newline)))
    = ["g1"; "27"].
Proof.
  destruct (trailing_space_ignored read_1_27 read_no_float no_flags
              (λ _, Return []) ("g1" +:+ tab +:+ "27") (tab +:+ tab +:+ newline))
    as (_ & _ & -> & _); [by vm_compute|by vm_compute].
Defined.

(** ** The files that must exist: [_check_files_exist] *)

Section check_files.
Variable path_exists : string → bool.

Lemma check_loop_Return names :
  for_each (λ (_ : unit) fname,
              if path_exists fname then Return ()
              else Raise (Error ("File not found: " +:+ dquote +:+ fname
                                 +:+ dquote +:+ ". Cannot continue")))
           names () = Return () ↔
  Forall (λ fname, path_exists fname = true) names.
Proof.
  induction names as [|f names IH]; simpl; [by split|].
  destruct (path_exists f) eqn:Hf; simpl.
  - rewrite IH. split; [by constructor|by inv 1].
  - split; [done|]. inv 1. congruence.
Qed.

Lemma check_files_exist_missing (self : Summary) before fname after :
  filenames self = before ++ fname :: after →
  Forall (λ f, path_exists f = true) before →
  path_exists fname = false →
  _check_files_exist path_exists self =
    Raise (Error ("File not found: " +:+ dquote +:+ fname
                  +:+ dquote +:+ ". Cannot continue")).
Proof.
  intros Hnames Hbefore Hmissing. unfold _check_files_exist.
  rewrite Hnames, for_each_app.
  apply check_loop_Return in Hbefore as ->. simpl. by rewrite Hmissing.
Qed.

(** X10: the check of the files returns exactly when every file name
    exists; otherwise it raises the [Error] that quotes the first file name,
    in the order of [filenames], that does not exist. *)
Theorem check_files_exist_first_missing (self : Summary) :
  (_check_files_exist path_exists self = Return () ↔
     Forall (λ f, path_exists f = true) (filenames self)) ∧
  (∀ before fname after,
     filenames self = before ++ fname :: after →
     Forall (λ f, path_exists f = true) before →
     path_exists fname = false →
     _check_files_exist path_exists self =
       Raise (Error ("File not found: " +:+ dquote +:+ fname
                     +:+ dquote +:+ ". Cannot continue"))).
Proof.
  split; [apply check_loop_Return|apply check_files_exist_missing].
Qed.
End check_files.

(** ** The lines of the summary: [_write_tsv] *)

Lemma has_tab_app s1 s2 : has_tab (s1 +:+ s2) = has_tab s1 || has_tab s2.
Proof.
  induction s1 as [|c s1 IH]; simpl; [done|].
  rewrite <-orb_assoc. by f_equal.
Qed.

Lemma pretty_N_go_no_tab (x : N) s :
  has_tab s = false → has_tab (pretty_N_go x s) = false.
Proof.
  revert s. induction (N.lt_wf_0 x) as [x _ IH]; intros s Hs.
  destruct (decide (x = 0)%N) as [->|Hx]; [by rewrite pretty_N_go_0|].
  rewrite pretty_N_go_step by lia. apply IH.
  - apply N.div_lt; lia.
  - simpl. rewrite Hs. unfold pretty_N_char. by repeat case_match.
Qed.

Lemma pretty_Z_no_tab (z : Z) : has_tab (pretty z) = false.
Proof.
  assert (∀ n : N, has_tab (pretty n) = false) as HN.
  { intros n. unfold pretty, pretty_N. case_decide; [done|].
    by apply pretty_N_go_no_tab. }
  unfold pretty, pretty_Z. destruct z; [done|apply HN|].
  rewrite has_tab_app. simpl. apply HN.
Qed.

Lemma split_tab_no_tab s : has_tab s = false → split_tab s = [s].
Proof.
  induction s as [|c s IH]; simpl; [done|].
  intros [Hc Hs]%orb_false_iff. by rewrite Hc, IH.
Qed.

Lemma split_tab_app_tab s rest :
  has_tab s = false → split_tab (s +:+ tab +:+ rest) = s :: split_tab rest.
Proof.
  induction s as [|c s IH]; simpl; [done|].
  intros [Hc Hs]%orb_false_iff. by rewrite Hc, IH.
Qed.

Lemma split_tab_concat (fields : list string) :
  fields ≠ [] → Forall (λ s, has_tab s = false) fields →
  split_tab (String.concat tab fields) = fields.
Proof.
  intros Hne Hfields. induction Hfields as [|s fields Hs Hrest IH]; [done|].
  destruct fields as [|s' fields]; simpl.
  - by apply split_tab_no_tab.
  - rewrite split_tab_app_tab by done. f_equal. by apply IH.
Qed.

Lemma write_tsv_loop (rows : list (list cell)) out :
  foldl (λ out row, out +:+ print_tab row +:+ newline) out rows =
  out +:+ String.concat "" ((λ row, print_tab row +:+ newline) <$> rows).
Proof.
  assert (∀ s, s +:+ "" = s) as Hnil.
  { induction s as [|c s IH]; [done|].
    change (String c (s +:+ "") = String c s). by f_equal. }
  assert (∀ s1 s2 s3, (s1 +:+ s2) +:+ s3 = s1 +:+ (s2 +:+ s3)) as Hassoc.
  { induction s1 as [|c s1 IH]; intros s2 s3; [done|].
    change (String c ((s1 +:+ s2) +:+ s3) = String c (s1 +:+ (s2 +:+ s3))).
    by f_equal. }
  revert out. induction rows as [|row rows IH]; intros out; simpl.
  { by rewrite Hnil. }
  rewrite IH, Hassoc. f_equal.
  destruct rows as [|row' rows]; simpl; [by rewrite Hnil|done].
Qed.

(** X11: the summary written by [_write_tsv] is a ['#'] followed by one
    line per row of [rows_out], in order; and splitting such a line at its
    tabs gives back the texts of the cells of its row, provided the row is
    not empty and no file or gene name in it holds a tab (a summary number
    never does). *)
Theorem write_tsv_lines (self : Summary) :
  _write_tsv self =
    "#" +:+ String.concat ""
              ((λ row, print_tab row +:+ newline) <$> rows_out self) ∧
  (∀ row, row ∈ rows_out self → row ≠ [] →
     (∀ s, Str s ∈ row → has_tab s = false) →
     split_tab (print_tab row) = str <$> row) ∧
  (∀ z, has_tab (str (Num z)) = false).
Proof.
  split_and!.
  - apply write_tsv_loop.
  - intros row _ Hne Hnames. unfold print_tab. apply split_tab_concat.
    + by destruct row.
    + apply Forall_fmap, Forall_forall. intros [s|z] Hin; simpl.
      * by apply Hnames.
      * apply pretty_Z_no_tab.
  - intros z. apply pretty_Z_no_tab.
Qed.

Lemma write_tsv_lines_witness :
  split_tab (print_tab [Str "c"; Num 1; Num 0; Num 2]) = ["c"; "1"; "0"; "2"].
Proof.
  destruct (write_tsv_lines (summary_of_rows three_samples)) as (_ & Hsplit & _).
  rewrite (Hsplit [Str "c"; Num 1; Num 0; Num 2]).
  - reflexivity.
  - simpl. unfold three_samples. do 3 right. left.
  - done.
  - intros s Hs. apply elem_of_cons in Hs as [Hs|Hs]; [by simplify_eq|].
    repeat (apply elem_of_cons in Hs as [Hs|Hs]; [done|]).
    by apply elem_of_nil in Hs.
Defined.

(** ** The distance as a measure of disagreement *)

Lemma exactly_one_zero_triangle x y z :
  exactly_one_zero x z = true →
  exactly_one_zero x y = true ∨ exactly_one_zero y z = true.
Proof.
  unfold exactly_one_zero.
  destruct (bool_decide (x = Num 0)), (bool_decide (y = Num 0)),
    (bool_decide (z = Num 0)); simpl; auto.
Qed.

Lemma disagreement_count_triangle (a b c : list cell) :
  length a = length b → length b = length c →
  (length (filter (λ p, exactly_one_zero p.1 p.2 = true) (zip a c)) ≤
   length (filter (λ p, exactly_one_zero p.1 p.2 = true) (zip a b)) +
   length (filter (λ p, exactly_one_zero p.1 p.2 = true) (zip b c)))%nat.
Proof.
  revert b c. induction a as [|x a IH]; intros [|y b] [|z c] Hab Hbc;
    simplify_eq/=; [lia|].
  specialize (IH b c Hab Hbc). rewrite !filter_cons. simpl.
  pose proof (exactly_one_zero_triangle x y z) as Htri.
  repeat case_decide; simpl; try lia.
  destruct Htri; done.
Qed.

Lemma disagreement_count_zero (a b : list cell) :
  length a = length b →
  filter (λ p, exactly_one_zero p.1 p.2 = true) (zip a b) = [] ↔
  Forall2 (λ x y, x = Num 0 ↔ y = Num 0) a b.
Proof.
  revert b. induction a as [|x a IH]; intros [|y b] Hlen; simplify_eq/=.
  { split; [constructor|done]. }
  rewrite filter_cons. simpl. split.
  - case_decide as Hxy; [done|]. intros Hrest%IH; [|done].
    constructor; [|done]. unfold exactly_one_zero in Hxy.
    repeat case_bool_decide; simpl in Hxy; try done; tauto.
  - inv 1 as [|???? Hxy Hrest]. apply IH in Hrest; [|done].
    rewrite decide_False; [done|]. unfold exactly_one_zero.
    repeat case_bool_decide; simpl; try done; tauto.
Qed.

(** X12: on rows of one length the distance score is a count of gene
    columns: it lies between 0 and the number of gene columns, it is 0
    exactly when the two rows have 0 in the same gene columns, and it obeys
    the triangle inequality. *)
Theorem distance_score_pseudometric (a b c : list cell) :
  length a = length b → length b = length c →
  ∃ dab dbc dac,
    _distance_score_between_lists a b = Return dab ∧
    _distance_score_between_lists b c = Return dbc ∧
    _distance_score_between_lists a c = Return dac ∧
    0 ≤ dab ≤ Z.of_nat (length a - 1) ∧
    dac ≤ dab + dbc ∧
    (dab = 0 ↔ Forall2 (λ x y, x = Num 0 ↔ y = Num 0) (tail a) (tail b)).
Proof.
  intros Hab Hbc.
  exists (disagreements a b), (disagreements b c), (disagreements a c).
  rewrite !distance_score_between_lists_Return by congruence.
  assert (length (tail a) = length (tail b)) as Hab'
    by by rewrite !length_tail_cells, Hab.
  assert (length (tail b) = length (tail c)) as Hbc'
    by by rewrite !length_tail_cells, Hbc.
  split_and!; [done..| | | |].
  - unfold disagreements. lia.
  - unfold disagreements.
    pose proof (length_filter (λ p : cell * cell, exactly_one_zero p.1 p.2 = true)
                  (zip (tail a) (tail b))) as Hle.
    rewrite length_zip, length_tail_cells in Hle. lia.
  - unfold disagreements.
    pose proof (disagreement_count_triangle _ _ _ Hab' Hbc'). lia.
  - rewrite <-disagreement_count_zero by done. unfold disagreements.
    split.
    + intros Hzero. apply length_zero_iff_nil. lia.
    + by intros ->.
Qed.

Lemma distance_score_pseudometric_witness :
  ∃ dab dbc dac,
    _distance_score_between_lists [Str "a"; Num 4; Num 0; Num 0]
                                  [Str "b"; Num 0; Num 0; Num 0] = Return dab ∧
    _distance_score_between_lists [Str "b"; Num 0; Num 0; Num 0]
                                  [Str "c"; Num 1; Num 0; Num 2] = Return dbc ∧
    _distance_score_between_lists [Str "a"; Num 4; Num 0; Num 0]
                                  [Str "c"; Num 1; Num 0; Num 2] = Return dac ∧
    dac ≤ dab + dbc.
Proof.
  destruct (distance_score_pseudometric
              [Str "a"; Num 4; Num 0; Num 0] [Str "b"; Num 0; Num 0; Num 0]
              [Str "c"; Num 1; Num 0; Num 2] eq_refl eq_refl)
    as (dab & dbc & dac & Hab & Hbc & Hac & _ & Htri & _).
  by exists dab, dbc, dac.
Defined.

(** ** What the classification reads *)

Lemma longest_loop_same_columns (l l' : list record) st :
  Forall2 (λ r r', assembled r = assembled r' ∧ pc_ident r = pc_ident r') l l' →
  for_each longest_step l st = for_each longest_step l' st.
Proof.
  intros Hsame. revert st.
  induction Hsame as [|r r' l l' [Hasm Hident] _ IH]; intros st; [done|].
  simpl. assert (longest_step st r = longest_step st r') as ->.
  { unfold longest_step. by rewrite Hasm, Hident. }
  destruct (longest_step st r'); simpl; [apply IH|done].
Qed.

(** X16: the summary number of a gene depends on the flag of its first
    record and on the assembled lengths and identities of its records, and
    on nothing else: two lists of records that agree in these give the same
    result, whatever the flags of the later records and the other columns
    are. *)
Theorem to_summary_number_reads (min_id' : float) (l l' : list record) :
  head (flag <$> l) = head (flag <$> l') →
  Forall2 (λ r r', assembled r = assembled r' ∧ pc_ident r = pc_ident r') l l' →
  _to_summary_number min_id' l = _to_summary_number min_id' l'.
Proof.
  intros Hflag Hsame. unfold _to_summary_number, _pc_id_of_longest.
  rewrite (longest_loop_same_columns l l' _ Hsame).
  destruct Hsame as [|first first' rest rest' _ _]; [done|].
  simpl in Hflag. injection Hflag as ->. done.
Qed.

Lemma to_summary_number_reads_witness :
  _to_summary_number 90
    [ report_line "g" clean_flag (Int 500) (Float 99);
      report_line "g" ∅ (Int 400) (Float 80) ] =
  _to_summary_number 90
    [ report_line "other" clean_flag (Int 500) (Float 99);
      report_line "other" {[ "assembly_fail" ]} (Int 400) (Float 80) ].
Proof.
  apply to_summary_number_reads; [done|].
  repeat constructor.
Defined.

(** ** Loading the reports and building the matrix: [_gather_output_rows] *)

Lemma for_each_append_Raise {A B} (f : A → result B) l acc e :
  for_each (λ acc x, y ← f x; Return (acc ++ [y])) l acc = Raise e →
  ∃ x, x ∈ l ∧ f x = Raise e.
Proof.
  revert acc. induction l as [|x l IH]; intros acc; simpl; [done|].
  destruct (f x) as [y|e'] eqn:Hx; simpl.
  - intros (x' & Hin & Hx')%IH. exists x'. split; [by right|done].
  - intros [= <-]. exists x. split; [left|done].
Qed.

(** An exception of the loops that build the rows is a missing report or
    the exception of a classification. *)
Lemma gather_rows_of_data_Raise (self : Summary) e :
  gather_rows_of_data self = Raise e →
  ∃ f, f ∈ filenames self ∧
    (data self !! f = None ∨
     ∃ report g l, data self !! f = Some report ∧ report !! g = Some l ∧
                   _to_summary_number (min_id self) l = Raise e).
Proof.
  unfold gather_rows_of_data. cbv zeta.
  set (genes := all_genes_of (data self)).
  destruct (for_each _ (filenames self) _) as [rows|e'] eqn:Hrows;
    simpl; [done|].
  intros [= ->]. unfold rows_step in Hrows.
  apply for_each_append_Raise in Hrows as (f & Hf & Hrow).
  exists f. split; [done|].
  rewrite (for_each_ext _ _ _ _
             (λ acc g _, new_row_step_append (min_id self) (data self) f acc g))
    in Hrow.
  apply for_each_append_Raise in Hrow as (g & _ & Hcell).
  destruct (data self !! f) as [report|]; [right|by left].
  destruct (report !! g) as [l|] eqn:Hg; [|done].
  exists report, g, l. split_and!; [done..|].
  destruct (_to_summary_number (min_id self) l); simpl in Hcell; congruence.
Qed.

Section gathering.
Variable py_int : string → option Z.
Variable py_float : string → option float.
Variable Flag_of_int : Z → result Flag.
Variable open_file_read : string → result (list string).

Local Abbreviation load_file :=
  (_load_file py_int py_float Flag_of_int open_file_read).
Local Abbreviation gather :=
  (_gather_output_rows py_int py_float Flag_of_int open_file_read).

Lemma load_loop_Return names (acc d : gmap string (gmap string (list record))) :
  for_each (λ acc filename,
              report ← load_file filename; Return (<[filename := report]> acc))
           names acc = Return d →
  (∀ f, f ∈ names → ∃ report, load_file f = Return report ∧ d !! f = Some report) ∧
  (∀ f, f ∉ names → d !! f = acc !! f).
Proof.
  revert acc. induction names as [|f0 names IH]; intros acc; simpl.
  { intros [= <-]. split; [|done]. intros f Hf. by apply elem_of_nil in Hf. }
  destruct (load_file f0) as [report0|] eqn:Hload; simpl; [|done].
  intros [Hin Hout]%IH. split.
  - intros f Hf. destruct (decide (f ∈ names)) as [?|Hnot]; [by apply Hin|].
    apply elem_of_cons in Hf as [->|?]; [|done].
    exists report0. split; [done|]. by rewrite Hout, lookup_insert_eq.
  - intros f Hf. apply not_elem_of_cons in Hf as [Hne Hnot].
    by rewrite Hout, lookup_insert_ne.
Qed.

Lemma load_loop_Raise names (acc : gmap string (gmap string (list record))) e :
  for_each (λ acc filename,
              report ← load_file filename; Return (<[filename := report]> acc))
           names acc = Raise e →
  ∃ f, f ∈ names ∧ load_file f = Raise e.
Proof.
  revert acc. induction names as [|f0 names IH]; intros acc; simpl; [done|].
  destruct (load_file f0) as [report0|e'] eqn:Hload; simpl.
  - intros (f & Hf & Hraise)%IH. exists f. split; [by right|done].
  - intros [= <-]. exists f0. split; [left|done].
Qed.

(** X14: [_gather_output_rows] raises only what loading one of the files
    raises, or what classifying the records of one gene of a loaded report
    raises; it does not raise [KeyError], since every file name has its
    report.  When every file loads and every gene classifies, it returns. *)
Theorem gather_output_rows_errors (self : Summary) :
  (∀ e, gather self = Raise e →
     (∃ f, f ∈ filenames self ∧ load_file f = Raise e) ∨
     (∃ f report g l, f ∈ filenames self ∧ load_file f = Return report ∧
        report !! g = Some l ∧
        _to_summary_number (min_id self) l = Raise e)) ∧
  ((∀ f, f ∈ filenames self →
      ∃ report, load_file f = Return report ∧
        ∀ g l, report !! g = Some l →
          ∃ n, _to_summary_number (min_id self) l = Return n) →
   ∃ built, gather self = Return built).
Proof.
  assert (∀ e, gather self = Raise e →
     (∃ f, f ∈ filenames self ∧ load_file f = Raise e) ∨
     (∃ f report g l, f ∈ filenames self ∧ load_file f = Return report ∧
        report !! g = Some l ∧
        _to_summary_number (min_id self) l = Raise e)) as Herrors.
  { intros e. unfold _gather_output_rows.
    destruct (for_each _ (filenames self) ∅) as [d|e'] eqn:Hload; simpl.
    - apply load_loop_Return in Hload as [Hin _].
      intros (f & Hf & Hcase)%gather_rows_of_data_Raise. simpl in *.
      destruct (Hin f Hf) as (report & Hreport & Hd). right.
      destruct Hcase as [Hnone|(report' & g & l & Hd' & Hg & Hl)];
        [congruence|].
      exists f, report, g, l. split_and!; [done..| |done]. congruence.
    - intros [= <-]. left. by apply load_loop_Raise in Hload. }
  split; [done|].
  intros Hfine. destruct (gather self) as [built|e] eqn:Hgather; [by eexists|].
  exfalso. destruct (Herrors e eq_refl)
    as [(f & Hf & Hraise)|(f & report & g & l & Hf & Hload & Hg & Hraise)].
  - destruct (Hfine f Hf) as (report & Hload & _). congruence.
  - destruct (Hfine f Hf) as (report' & Hload' & Hclass).
    rewrite Hload in Hload'. injection Hload' as <-.
    destruct (Hclass g l Hg) as [n Hn]. congruence.
Qed.
End gathering.

(** ** The whole run *)

(** With no gene every row is the file name alone. *)
Lemma gather_rows_of_data_no_gene (self : Summary) :
  all_genes_of (data self) = [] →
  gather_rows_of_data self =
  Return (set_rows_out self
            (summary_matrix [] ((λ f, (f, [])) <$> filenames self))).
Proof.
  intros Hgenes. unfold gather_rows_of_data. cbv zeta. rewrite Hgenes.
  assert (∀ names rows,
            for_each (rows_step (min_id self) (data self) []) names rows =
            Return (rows ++ ((λ p : string * list Z, Str p.1 :: (Num <$> p.2))
                               <$> ((λ f, (f, [])) <$> names)))) as Hloop.
  { induction names as [|f names IH]; intros rows; simpl.
    - by rewrite app_nil_r.
    - rewrite IH. by rewrite <-app_assoc. }
  by rewrite Hloop.
Qed.

Section running_theorems.
Variable py_int : string → option Z.
Variable py_float : string → option float.
Variable Flag_of_int : Z → result Flag.
Variable open_file_read : string → result (list string).
Variable path_exists : string → bool.
Variable _write_js_candy_files : Summary → result unit.

Local Abbreviation load_file :=
  (_load_file py_int py_float Flag_of_int open_file_read).
Local Abbreviation run' :=
  (run py_int py_float Flag_of_int open_file_read path_exists
       _write_js_candy_files).

(** A file that holds nothing but header lines loads as the empty report. *)
Lemma load_file_header_lines filename lines :
  open_file_read filename = Return lines →
  Forall (λ line, startswith_hash line = true ∧ header_mismatch line = false)
         lines →
  load_file filename = Return ∅.
Proof.
  intros Hread Hlines. unfold _load_file, load_lines. rewrite Hread. simpl.
  clear Hread. generalize (∅ : gmap string (list record)).
  induction Hlines as [|line lines [Hhash Hok] _ IH]; intros d; simpl; [done|].
  assert (load_step py_int py_float Flag_of_int d line = Return d) as ->.
  { unfold load_step. by rewrite Hhash, Hok. }
  apply IH.
Qed.

(** X13: a run stops at the first file name that does not exist, with the
    [Error] that quotes it.  And with the filter switched on, a run over
    files that all exist and all load as empty reports (files with nothing
    but header lines do, and so does a run over no file at all) raises
    [IndexError] instead of writing a summary. *)
Theorem run_raises (self : Summary) :
  (∀ before fname after,
     filenames self = before ++ fname :: after →
     Forall (λ f, path_exists f = true) before →
     path_exists fname = false →
     run' self = Raise (Error ("File not found: " +:+ dquote +:+ fname
                               +:+ dquote +:+ ". Cannot continue"))) ∧
  (filter_output self = true →
   Forall (λ f, path_exists f = true ∧ load_file f = Return ∅)
          (filenames self) →
   run' self = Raise IndexError) ∧
  (∀ filename lines,
     open_file_read filename = Return lines →
     Forall (λ line, startswith_hash line = true ∧ header_mismatch line = false)
            lines →
     load_file filename = Return ∅).
Proof.
  split_and!.
  - intros before fname after Hnames Hbefore Hmissing. unfold run.
    by rewrite (check_files_exist_missing path_exists self before fname after).
  - intros Hon Hfiles. unfold run.
    assert (_check_files_exist path_exists self = Return ()) as ->.
    { apply check_loop_Return. eapply Forall_impl; [exact Hfiles|].
      by intros f [? _]. }
    cbn [mbind result_bind]. unfold _gather_output_rows.
    destruct (for_each _ (filenames self) ∅) as [d|e] eqn:Hload.
    2:{ apply load_loop_Raise in Hload as (f & Hf & Hraise).
        rewrite Forall_forall in Hfiles. destruct (Hfiles f Hf) as [_ Hok].
        congruence. }
    apply load_loop_Return in Hload as [Hin Hout].
    assert (all_genes_of d = []) as Hgenes.
    { apply all_genes_of_nil. intros f report Hd.
      destruct (decide (f ∈ filenames self)) as [Hf|Hf].
      - destruct (Hin f Hf) as (report' & Hload' & Hd').
        rewrite Forall_forall in Hfiles. destruct (Hfiles f Hf) as [_ Hok].
        congruence.
      - by rewrite (Hout f Hf), lookup_empty in Hd. }
    cbn [mbind result_bind].
    rewrite (gather_rows_of_data_no_gene (set_data self d)) by done.
    cbn [mbind result_bind].
    rewrite (filter_output_rows_no_gene_raises _
               ((λ f, (f, [])) <$> filenames self)); [done..|].
    apply Forall_fmap, Forall_forall. by intros f _.
  - apply load_file_header_lines.
Qed.
End running_theorems.

Lemma run_raises_witness :
  run read_1_27 read_no_float no_flags (λ _, Return []) (λ _, true)
      (λ _, Return ()) (summary_of_rows []) = Raise IndexError.
Proof.
  apply (run_raises read_1_27 read_no_float no_flags (λ _, Return [])
           (λ _, true) (λ _, Return ()) (summary_of_rows [])).
  - reflexivity.
  - constructor.
Defined.

(** ** The comma-separated file: [_write_js_candy_csv] *)

Lemma write_js_candy_csv_loop (rows : list (list cell)) (out : list string) :
  foldl (λ out row, out ++ [print_comma row]) out rows =
  out ++ (print_comma <$> rows).
Proof.
  revert out. induction rows as [|row rows IH]; intros out; simpl.
  - by rewrite app_nil_r.
  - by rewrite IH, <-app_assoc.
Qed.

(** X15: [_write_js_candy_csv] raises [IndexError] when [rows_out] is
    empty and otherwise writes one comma-joined line per row, the first with
    [name] in place of the header's first cell; and neither the rows just
    built nor the rows that a filter returned are ever empty, so after them
    it does not raise. *)
Theorem write_js_candy_csv_lines (self : Summary) :
  (rows_out self = [] → _write_js_candy_csv self = Raise IndexError) ∧
  (∀ header rest, rows_out self = header :: rest →
     _write_js_candy_csv self =
       Return (print_comma (Str "name" :: tail header)
               :: (print_comma <$> rest))) ∧
  (∀ built, gather_rows_of_data self = Return built →
     ∃ lines, _write_js_candy_csv built = Return lines ∧
              length lines = S (length (filenames self))) ∧
  (∀ filtered, filter_output self = true →
     _filter_output_rows self = Return filtered →
     ∃ lines, _write_js_candy_csv filtered = Return lines ∧
              length lines = length (rows_out filtered)).
Proof.
  assert (∀ s header rest, rows_out s = header :: rest →
            _write_js_candy_csv s =
              Return (print_comma (Str "name" :: tail header)
                      :: (print_comma <$> rest))) as Hlines.
  { intros s header rest Hrows. unfold _write_js_candy_csv. rewrite Hrows.
    simpl. by rewrite write_js_candy_csv_loop. }
  split_and!.
  - intros Hrows. unfold _write_js_candy_csv. by rewrite Hrows.
  - apply Hlines.
  - intros built (body & -> & Hnames & _)%gather_rows_of_data_body.
    eexists. split; [by apply Hlines|].
    simpl. by rewrite !length_fmap, <-Hnames, length_fmap.
  - intros filtered Hon. unfold _filter_output_rows. rewrite Hon. simpl.
    destruct (filter _ (rows_out self)) as [|header rows] eqn:Hrows;
      simpl; [done|].
    destruct (for_each _ _ _) as [to_remove|]; simpl; [|done].
    intros [= <-]. eexists. split; [by apply Hlines|].
    simpl. by rewrite !length_fmap.
Qed.

Lemma write_js_candy_csv_lines_witness :
  _write_js_candy_csv (summary_of_rows three_samples) =
  Return [ "name,g1,g2,g3"; "a,4,0,0"; "b,0,0,0"; "c,1,0,2" ].
Proof.
  destruct (write_js_candy_csv_lines (summary_of_rows three_samples))
    as (_ & Hlines & _).
  by rewrite (Hlines [Str "filename"; Str "g1"; Str "g2"; Str "g3"]
                [ [Str "a"; Num 4; Num 0; Num 0];
                  [Str "b"; Num 0; Num 0; Num 0];
                  [Str "c"; Num 1; Num 0; Num 2] ]).
Defined.

(** ** The matrix of reports that classify *)



